(** * Quadcopter task (P5_Quadcopter/task_AC.py): reward shaping and
    step/reset control around a physics simulator.

    Numbers are modelled as exact reals: numpy's float64 values are read as
    the real numbers they denote and its operations as the exact operations.
    Arrays are one-dimensional and modelled as lists; Python exceptions are
    modelled by an error monad. *)

From Stdlib Require Import Reals Lra Lia List ZArith Bool.
Import ListNotations.
Local Open Scope R_scope.

(** ** Python exceptions

    A call either returns or raises.  A raised exception carries no
    instance: nothing in the task catches one, so the attributes a method
    assigned before it raised are never read again. *)

Module Py.

Inductive exn : Set :=
| TypeError         (* None used as an array; unsupported operand *)
| IndexError        (* subscript out of range *)
| ValueError        (* shapes that do not broadcast; empty concatenate *)
| UnboundLocalError (* a local read before any assignment *).

Inductive result (A : Type) : Type :=
| Ok (a : A)
| Raise (e : exn).
Arguments Ok {A} a.
Arguments Raise {A} e.

Definition bind {A B : Type} (m : result A) (k : A -> result B) : result B :=
  match m with
  | Ok a => k a
  | Raise e => Raise e
  end.

Definition fmap {A B : Type} (f : A -> B) (m : result A) : result B :=
  bind m (fun a => Ok (f a)).

End Py.
Import Py.

Declare Scope py_scope.
Delimit Scope py_scope with py.
Notation "x <- m ;; k" := (bind m (fun x => k))
  (at level 61, m at next level, right associativity) : py_scope.
Notation "' pat <- m ;; k" := (bind m (fun x => match x with pat => k end))
  (at level 61, pat pattern, m at next level, right associativity) : py_scope.
Local Open Scope py_scope.

(** ** The numpy fragment the task uses, on one-dimensional arrays *)

Module Np.

Definition array := list R.

(** A value that is either a Python scalar or an array ([reward] in [step]
    starts as the scalar [0] and becomes an array at the first [+=]). *)
Inductive pyval : Type :=
| Scalar (x : R)
| Arr (a : array).

Fixpoint zip_with (f : R -> R -> R) (a b : array) : array :=
  match a, b with
  | x :: a', y :: b' => f x y :: zip_with f a' b'
  | _, _ => []
  end.

(** Binary ufunc on shapes (n,) and (m,): the shapes must agree or one of
    them must be 1, otherwise numpy raises ValueError. *)
Definition broadcast2 (f : R -> R -> R) (a b : array) : result array :=
  if Nat.eqb (length a) (length b) then Ok (zip_with f a b)
  else if Nat.eqb (length a) 1 then Ok (map (f (hd 0 a)) b)
  else if Nat.eqb (length b) 1 then Ok (map (fun x => f x (hd 0 b)) a)
  else Raise ValueError.

Definition sub (a b : array) : result array := broadcast2 Rminus a b.
Definition add (a b : array) : result array := broadcast2 Rplus a b.
Definition maximum (a b : array) : result array := broadcast2 Rmax a b.

(** [a[i]] for a non-negative literal index. *)
Definition getitem (a : array) (i : nat) : result R :=
  match nth_error a i with
  | Some x => Ok x
  | None => Raise IndexError
  end.

(** [a[i:j]] and [a[i:]]: slices never raise. *)
Definition slice (a : array) (i j : nat) : array := firstn (j - i) (skipn i a).
Definition slice_from (a : array) (i : nat) : array := skipn i a.

Definition sum (a : array) : R := fold_left Rplus a 0.

Definition square (x : R) : R := x * x.

(** [a.dot(b)]; the task only calls it as [v.dot(v)], where the two shapes
    agree. *)
Definition dot (a b : array) : R := sum (zip_with Rmult a b).

Definition ones (n : nat) : array := repeat 1 n.
Definition zeros (n : nat) : array := repeat 0 n.

(** [np.concatenate]: needs at least one array. *)
Definition concatenate (l : list array) : result array :=
  match l with
  | [] => Raise ValueError
  | _ => Ok (concat l)
  end.

(** Python's list repetition [l * n]. *)
Fixpoint list_repeat {A : Type} (l : list A) (n : nat) : list A :=
  match n with
  | O => []
  | S n' => l ++ list_repeat l n'
  end.

(** [x + y] where [x] is a scalar-or-array and [y] an array; for an array
    [x] this is the in-place [x += y], whose result must keep [x]'s shape. *)
Definition iadd (x : pyval) (y : array) : result pyval :=
  match x with
  | Scalar s => Ok (Arr (map (Rplus s) y))
  | Arr a =>
      r <- add a y ;;
      if Nat.eqb (length r) (length a) then Ok (Arr r) else Raise ValueError
  end.

(** The accumulator [x] holds the running total [total], as the initial
    scalar or as a one-element array. *)
Definition reward_so_far (x : pyval) (total : R) : Prop :=
  x = Scalar total \/ x = Arr [total].

End Np.
Import Np.

(** ** Module-level helpers of task_AC.py *)

(** [smoothabs(x) = np.sqrt(np.square(x) + 10e-16)] *)
Definition smoothabs (x : R) : R := sqrt (square x + 10e-16).

(** [smoothmin(a,b)], with [alpha = -100]. *)
Definition smoothmin (a b : R) : R :=
  let alpha := -100 in
  (a * exp (alpha * a) + b * exp (alpha * b)) / (exp (alpha * a) + exp (alpha * b)).

(** [mag(v) = np.sqrt(v.dot(v))] *)
Definition mag (v : array) : R := sqrt (dot v v).

(** ** The physics simulator, an external collaborator *)

(** Modelled from the spec: physics_sim.PhysicsSim is not part of the source
    at hand; the task consumes from it [pose] (6 floats: position and Euler
    angles), [v], [angular_v], [time], [reset()] and
    [next_timestep(rotor_speeds) -> done].  The simulator rebinds [pose] and
    [angular_v] to fresh arrays at every timestep, so the task's history
    buffer holds values, not aliases. *)
Class PhysicsSim (S : Type) : Type := {
  sim_new : option array -> option array -> option array -> R -> S;
  sim_init_pose : S -> array;
  sim_time : S -> R;
  sim_pose : S -> array;
  sim_v : S -> array;
  sim_angular_v : S -> array;
  sim_reset : S -> S;
  next_timestep : S -> array -> S * bool
}.

(** Modelled from the spec: [reset()] "resets the wrapped simulator to its
    initial pose"; the initial pose itself is fixed for the simulator's
    life. *)
Class PhysicsSimResets (S : Type) `{PhysicsSim S} : Prop := {
  reset_pose : forall s : S, sim_pose (sim_reset s) = sim_init_pose s;
  reset_init_pose : forall s : S, sim_init_pose (sim_reset s) = sim_init_pose s
}.

(** Modelled from the spec: every timestep leaves a pose of 6 floats and an
    angular velocity of 3 floats. *)
Class PhysicsSimShapes (S : Type) `{PhysicsSim S} : Prop := {
  pose_shape : forall (s : S) (r : array),
      length (sim_pose (fst (next_timestep s r))) = 6%nat;
  angular_v_shape : forall (s : S) (r : array),
      length (sim_angular_v (fst (next_timestep s r))) = 3%nat
}.

(** ** class Task *)

Section TaskModel.

Context {S : Type} `{PhysicsSim S}.

(** The attributes of a Task instance.  [distpunishment] and
    [highanglepunishment] do not exist until [calc_reward] first runs. *)
Record Task : Type := mkTask {
  sim : S;
  action_repeat : nat;
  state_size : nat;
  action_size : nat;
  action_low : array;
  action_high : array;
  target_pos : array;
  target_vel : array;
  initvec2tgt : array;
  suminitdist : R;
  initdist2tgt : R;
  distpunishment : option R;
  highanglepunishment : option R
}.

Definition set_sim (self : Task) (s : S) : Task :=
  mkTask s (action_repeat self) (state_size self) (action_size self)
         (action_low self) (action_high self) (target_pos self) (target_vel self)
         (initvec2tgt self) (suminitdist self) (initdist2tgt self)
         (distpunishment self) (highanglepunishment self).

Definition set_distpunishment (self : Task) (x : R) : Task :=
  mkTask (sim self) (action_repeat self) (state_size self) (action_size self)
         (action_low self) (action_high self) (target_pos self) (target_vel self)
         (initvec2tgt self) (suminitdist self) (initdist2tgt self)
         (Some x) (highanglepunishment self).

Definition set_highanglepunishment (self : Task) (x : R) : Task :=
  mkTask (sim self) (action_repeat self) (state_size self) (action_size self)
         (action_low self) (action_high self) (target_pos self) (target_vel self)
         (initvec2tgt self) (suminitdist self) (initdist2tgt self)
         (distpunishment self) (Some x).

(** The four assignments of [reset]'s new-target branch. *)
Definition set_target (self : Task) (tgt vec : array) (sumd dist : R) : Task :=
  mkTask (sim self) (action_repeat self) (state_size self) (action_size self)
         (action_low self) (action_high self) tgt (target_vel self)
         vec sumd dist
         (distpunishment self) (highanglepunishment self).

(** An argument that must be an array: [None] raises TypeError when it is
    subscripted or used as an operand. *)
Definition as_array (a : option array) : result array :=
  match a with
  | Some x => Ok x
  | None => Raise TypeError
  end.

(** [Task.__init__].  Lines 50-51 give [self.target_pos] and
    [self.target_vel] their defaults; line 53 reads the parameters
    [target_pos] and [init_pose] themselves. *)
Definition Task_init (init_pose init_velocities init_angle_velocities : option array)
    (runtime : R) (target_pos target_vel : option array) : result Task :=
  let sim := sim_new init_pose init_velocities init_angle_velocities runtime in
  let action_repeat := 3%nat in
  let state_size :=
    (action_repeat * (length (sim_pose sim) + length (sim_angular_v sim)))%nat in
  let action_size := 5%nat in
  let action_low := [400; -1; -1; -1; -1] in
  let action_high := [565; 1; 1; 1; 1] in
  let self_target_pos :=
    match target_pos with Some t => t | None => [0; 0; 10] end in
  let self_target_vel :=
    match target_vel with Some t => t | None => [0; 0; 0] end in
  pose0 <- as_array init_pose ;;
  tgt <- as_array target_pos ;;
  initvec2tgt <- sub tgt (slice pose0 0 3) ;;
  let suminitdist := Rmax (sum (map Rabs initvec2tgt)) 5 in
  let initdist2tgt := Rmax (mag initvec2tgt) 5 in
  Ok (mkTask sim action_repeat state_size action_size action_low action_high
             self_target_pos self_target_vel
             initvec2tgt suminitdist initdist2tgt None None).

(** The single correction of lines 82-85: [if a > np.pi: a -= 2*np.pi]. *)
Definition wrap_once (a : R) : R :=
  if Rgt_dec a PI then a - 2 * PI else a.

(** [Task.calc_reward]; returns the updated instance and the one-element
    array that [np.tanh([...])] builds. *)
Definition calc_reward (self : Task) (time : R) (position angles velocities : array)
    : result (Task * array) :=
  rvec2tgt <- sub (target_pos self) position ;;
  let dist2tgt := mag rvec2tgt in
  let self := set_distpunishment self
                (sum (map smoothabs rvec2tgt) / suminitdist self) in
  myphi <- getitem angles 0 ;;
  mytheta <- getitem angles 1 ;;
  let myphi := wrap_once myphi in
  let mytheta := wrap_once mytheta in
  let hap := smoothabs mytheta + smoothabs myphi in
  let self := set_highanglepunishment self hap in
  Ok (self, [tanh (2 - hap)]).

(** [Task.get_reward] *)
Definition get_reward (self : Task) : result (Task * array) :=
  let s := sim self in
  calc_reward self (sim_time s) (slice (sim_pose s) 0 3) (slice_from (sim_pose s) 3)
              (sim_v s).

(** [Task.get_max_reward] *)
Definition get_max_reward (self : Task) : result (Task * array) :=
  '(self, r) <- calc_reward self 1e8 (target_pos self) (zeros 3) (zeros 3) ;;
  Ok (self, map (Rmult (INR (action_repeat self))) r).

(** [rotor_speeds = np.maximum(actions[0] + actions[1:5], np.ones(4))] *)
Definition rotor_speeds (actions : array) : result array :=
  a0 <- getitem actions 0 ;;
  maximum (map (Rplus a0) (slice actions 1 5)) (ones 4).

(** The local variables of [step] that its loop updates; [done] is unbound
    before the first iteration. *)
Record step_locals : Type := mkLocals {
  l_self : Task;
  l_reward : pyval;
  l_pose_all : list array;
  l_done : option bool
}.

(** One iteration of [for _ in range(self.action_repeat)]. *)
Definition step_body (rotor_speeds : array) (l : step_locals) : result step_locals :=
  let '(s', done) := next_timestep (sim (l_self l)) rotor_speeds in
  let self := set_sim (l_self l) s' in
  '(self, r) <- get_reward self ;;
  reward <- iadd (l_reward l) r ;;
  let pose_all := l_pose_all l ++ [sim_pose (sim self); sim_angular_v (sim self)] in
  Ok (mkLocals self reward pose_all (Some done)).

Fixpoint step_loop (n : nat) (rotor_speeds : array) (l : step_locals)
    : result step_locals :=
  match n with
  | O => Ok l
  | Datatypes.S n' =>
      l' <- step_body rotor_speeds l ;;
      step_loop n' rotor_speeds l'
  end.

(** [Task.step]: returns the updated instance and the tuple
    [(next_state, reward, done)]. *)
Definition step (self : Task) (actions : array)
    : result (Task * (array * pyval * bool)) :=
  let reward := Scalar 0 in
  let pose_all := [] in
  rs <- rotor_speeds actions ;;
  l <- step_loop (action_repeat self) rs (mkLocals self reward pose_all None) ;;
  next_state <- concatenate (l_pose_all l) ;;
  match l_done l with
  | Some done => Ok (l_self l, (next_state, l_reward l, done))
  | None => Raise UnboundLocalError
  end.

(** [Task.reset] *)
Definition reset (self : Task) (new_tgt_pos : option array) : result (Task * array) :=
  let self := set_sim self (sim_reset (sim self)) in
  state <- concatenate
             (list_repeat [sim_pose (sim self); sim_angular_v (sim self)]
                          (action_repeat self)) ;;
  match new_tgt_pos with
  | Some t =>
      initvec2tgt <- sub t (slice (sim_pose (sim self)) 0 3) ;;
      let suminitdist := Rmax (sum (map smoothabs initvec2tgt)) 5 in
      let initdist2tgt := mag initvec2tgt in
      Ok (set_target self t initvec2tgt suminitdist initdist2tgt, state)
  | None => Ok (self, state)
  end.

(** The attributes that only [__init__] and [reset] assign. *)
Definition same_goal (self self' : Task) : Prop :=
  action_repeat self' = action_repeat self /\
  target_pos self' = target_pos self /\
  initvec2tgt self' = initvec2tgt self /\
  suminitdist self' = suminitdist self /\
  initdist2tgt self' = initdist2tgt self.

End TaskModel.

Arguments Task S : clear implicits.

(** ** The done flags a simulator reports over consecutive timesteps *)

Section SimTrace.

Context {S : Type} `{PhysicsSim S}.

(** The simulator states and done flags of [n] consecutive calls of
    [next_timestep] with the same rotor speeds, oldest first. *)
Fixpoint sim_trace (n : nat) (s : S) (rs : array) : list (S * bool) :=
  match n with
  | O => []
  | Datatypes.S n' =>
      let sd := next_timestep s rs in
      sd :: sim_trace n' (fst sd) rs
  end.

Definition reported_done (n : nat) (s : S) (rs : array) : list bool :=
  map snd (sim_trace n s rs).

(** A simulator whose done flag is latched: once reported, it is reported
    at every later timestep. *)
Definition latched_done : Prop :=
  forall (s : S) (rs rs' : array),
    snd (next_timestep s rs) = true ->
    snd (next_timestep (fst (next_timestep s rs)) rs') = true.

End SimTrace.

(** ** Two small simulators, used to run the task on concrete inputs *)

Module TickSim.

(** A simulator that only counts its timesteps: the copter climbs one unit
    per timestep from the origin, and [done_at] says at which timestep
    counts the done flag is reported. *)
Definition tick_sim (done_at : nat -> bool) : PhysicsSim nat := {|
  sim_new := fun _ _ _ _ => O;
  sim_init_pose := fun _ => [0; 0; 0; 0; 0; 0];
  sim_time := fun n => INR n;
  sim_pose := fun n => [0; 0; INR n; 0; 0; 0];
  sim_v := fun _ => [0; 0; 1];
  sim_angular_v := fun _ => [0; 0; 0];
  sim_reset := fun _ => O;
  next_timestep := fun n _ => (Datatypes.S n, done_at (Datatypes.S n))
|}.

(** Reports done at the first timestep only. *)
Definition blip : PhysicsSim nat := tick_sim (Nat.eqb 1).

(** Reports done from the second timestep on (a runtime limit). *)
Definition timeout : PhysicsSim nat := tick_sim (Nat.leb 2).

(** The instance [Task(init_pose=zeros(6), target_pos=[0,0,10])] builds on
    a tick simulator. *)
Definition demo_task : Task nat :=
  mkTask O 3 27 5 [400; -1; -1; -1; -1] [565; 1; 1; 1; 1]
         [0; 0; 10] [0; 0; 0] [0; 0; 10] 10 10 None None.

End TickSim.

(** ** Fixed-point lower bounds for the exponential *)

Module ExpBounds.

Definition scale : Z := (2 ^ 80)%Z.

(** The real number a fixed-point integer stands for. *)
Definition fx (z : Z) : R := IZR z / IZR scale.

(** Square, rounded down to a multiple of [1 / scale]. *)
Definition sq_down (z : Z) : Z := (z * z / scale)%Z.

(** [z ^ (2 ^ n)], every squaring rounded down. *)
Fixpoint pow2_down (n : nat) (z : Z) : Z :=
  match n with
  | O => z
  | S n' => pow2_down n' (sq_down z)
  end.

End ExpBounds.

(** ** The instances a sequence of calls can produce *)

Section Reachable.

Context {S : Type} `{PhysicsSim S}.

Inductive reachable : Task S -> Prop :=
| reach_init : forall ip iv iav rt tp tv self,
    Task_init ip iv iav rt tp tv = Ok self -> reachable self
| reach_reset : forall self new_tgt_pos self' state,
    reachable self -> reset self new_tgt_pos = Ok (self', state) ->
    reachable self'
| reach_step : forall self actions self' out,
    reachable self -> step self actions = Ok (self', out) -> reachable self'
| reach_calc_reward : forall self time position angles velocities self' r,
    reachable self ->
    calc_reward self time position angles velocities = Ok (self', r) ->
    reachable self'
| reach_get_reward : forall self self' r,
    reachable self -> get_reward self = Ok (self', r) -> reachable self'
| reach_get_max_reward : forall self self' r,
    reachable self -> get_max_reward self = Ok (self', r) -> reachable self'.

End Reachable.

(** ** The configuration of an instance *)

Section Config.

Context {S : Type}.

(** The attributes that [__init__] assigns and no other method does. *)
Definition same_config (self self' : Task S) : Prop :=
  action_repeat self' = action_repeat self /\
  state_size self' = state_size self /\
  action_size self' = action_size self /\
  action_low self' = action_low self /\
  action_high self' = action_high self /\
  target_vel self' = target_vel self.

End Config.

(** ** float64 values *)

Module F64.

(** The finite binary64 numbers: a 53-bit significand times a power of
    two. *)
Definition is_f64 (x : R) : Prop :=
  exists m e : Z,
    (Z.abs m < 2 ^ 53)%Z /\ (-1074 <= e <= 971)%Z /\ x = IZR m * powerRZ 2 e.

(** [y] is a float64 nearest to the real [x]. *)
Definition nearest (x y : R) : Prop :=
  is_f64 y /\ forall z : R, is_f64 z -> Rabs (y - x) <= Rabs (z - x).

End F64.

(** What [np.tanh] hands back is a float64: where a property turns on it,
    [returned_f64 r y] reads the float64 [y] as one nearest to the exact
    value [r], the arithmetic before it being kept exact. *)
Definition returned_f64 (r y : R) : Prop := F64.nearest r y.

(** ** The instances built from given constructor arguments *)

Section BuiltFrom.

Context {S : Type} `{PhysicsSim S}.

(** [reachable], keeping the arguments the simulator was built from. *)
Inductive built_from (ip iv iav : option array) (rt : R) : Task S -> Prop :=
| built_init : forall tp tv self,
    Task_init ip iv iav rt tp tv = Ok self -> built_from ip iv iav rt self
| built_reset : forall self new_tgt_pos self' state,
    built_from ip iv iav rt self ->
    reset self new_tgt_pos = Ok (self', state) ->
    built_from ip iv iav rt self'
| built_step : forall self actions self' out,
    built_from ip iv iav rt self ->
    step self actions = Ok (self', out) ->
    built_from ip iv iav rt self'
| built_calc_reward : forall self time position angles velocities self' r,
    built_from ip iv iav rt self ->
    calc_reward self time position angles velocities = Ok (self', r) ->
    built_from ip iv iav rt self'
| built_get_reward : forall self self' r,
    built_from ip iv iav rt self ->
    get_reward self = Ok (self', r) ->
    built_from ip iv iav rt self'
| built_get_max_reward : forall self self' r,
    built_from ip iv iav rt self ->
    get_max_reward self = Ok (self', r) ->
    built_from ip iv iav rt self'.

End BuiltFrom.

(** * Properties *)

(** ** Real-number facts about [exp], [tanh] and [smoothabs] *)

Module ExpBoundsFacts.
Import ExpBounds.

Lemma scale_pos : 0 < IZR scale.
Proof. apply IZR_lt. reflexivity. Qed.

Lemma sq_down_nonneg z : (0 <= z)%Z -> (0 <= sq_down z)%Z.
Proof.
  intros Hz. unfold sq_down. apply Z.div_pos; [nia | reflexivity].
Qed.

Lemma sq_down_le z : fx (sq_down z) <= fx z * fx z.
Proof.
  unfold fx, sq_down.
  pose proof scale_pos as Hs.
  assert (Hz : (z * z / scale * scale <= z * z)%Z).
  { rewrite Z.mul_comm. apply Z.mul_div_le. reflexivity. }
  apply IZR_le in Hz. rewrite !mult_IZR in Hz.
  set (q := IZR (z * z / scale)) in *.
  apply Rmult_le_reg_r with (IZR scale * IZR scale); [nra|].
  field_simplify; [|lra|lra]. nra.
Qed.

(** Squaring a lower bound of [exp y] [n] times bounds [exp (2^n * y)]. *)
Lemma pow2_down_le n : forall z y,
  (0 <= z)%Z -> fx z <= exp y -> fx (pow2_down n z) <= exp (2 ^ n * y).
Proof.
  induction n as [|n IH]; intros z y Hz Hy; simpl.
  - now rewrite Rmult_1_l.
  - replace (2 * 2 ^ n * y) with (2 ^ n * (y + y)) by ring.
    apply IH; [now apply sq_down_nonneg|].
    rewrite exp_plus.
    assert (0 <= fx z).
    { unfold fx. apply Rmult_le_pos; [now apply IZR_le|].
      apply Rlt_le, Rinv_0_lt_compat, scale_pos. }
    pose proof (sq_down_le z). nra.
Qed.

(** [1 + x <= exp x] at [x = 2^-28], in fixed point. *)
Lemma fx_start_up : fx (scale + 2 ^ 52) <= exp (/ 268435456).
Proof.
  replace (fx (scale + 2 ^ 52)) with (1 + / 268435456); [apply exp_ineq1_le|].
  unfold fx, scale. rewrite plus_IZR.
  change (2 ^ 80)%Z with (2 ^ 52 * 268435456)%Z. rewrite mult_IZR.
  assert (0 < IZR (2 ^ 52)) by (apply IZR_lt; reflexivity).
  field. lra.
Qed.

Lemma fx_start_down : fx (scale - 2 ^ 52) <= exp (- / 268435456).
Proof.
  replace (fx (scale - 2 ^ 52)) with (1 + - / 268435456); [apply exp_ineq1_le|].
  unfold fx, scale. rewrite minus_IZR.
  change (2 ^ 80)%Z with (2 ^ 52 * 268435456)%Z. rewrite mult_IZR.
  assert (0 < IZR (2 ^ 52)) by (apply IZR_lt; reflexivity).
  field. lra.
Qed.

Lemma exp4_lower : 54.59814 < exp 4.
Proof.
  pose proof (pow2_down_le 30 (scale + 2 ^ 52)%Z (/ 268435456)) as Hb.
  specialize (Hb ltac:(vm_compute; discriminate) fx_start_up).
  replace (2 ^ 30 * / 268435456) with 4 in Hb by lra.
  eapply Rlt_le_trans; [|exact Hb].
  unfold fx.
  let v := eval vm_compute in (pow2_down 30 (scale + 2 ^ 52)%Z) in
  change (pow2_down 30 (scale + 2 ^ 52)%Z) with v.
  let v := eval vm_compute in scale in change scale with v.
  lra.
Qed.

Lemma exp4_upper : exp 4 < 54.59816.
Proof.
  pose proof (pow2_down_le 30 (scale - 2 ^ 52)%Z (- / 268435456)) as Hb.
  specialize (Hb ltac:(vm_compute; discriminate) fx_start_down).
  replace (2 ^ 30 * - / 268435456) with (- (4)) in Hb by lra.
  rewrite exp_Ropp in Hb.
  pose proof (exp_pos 4) as Hp.
  unfold fx in Hb. revert Hb.
  let v := eval vm_compute in (pow2_down 30 (scale - 2 ^ 52)%Z) in
  change (pow2_down 30 (scale - 2 ^ 52)%Z) with v.
  let v := eval vm_compute in scale in change scale with v.
  intros Hb.
  apply Rmult_le_compat_r with (r := exp 4) in Hb; [|lra].
  rewrite Rinv_l in Hb by lra.
  lra.
Qed.

End ExpBoundsFacts.

Section RealFacts.

Lemma tanh_exp x : tanh x = (exp (2 * x) - 1) / (exp (2 * x) + 1).
Proof.
  unfold tanh, sinh, cosh.
  replace (2 * x) with (x + x) by ring.
  rewrite exp_plus, exp_Ropp.
  pose proof (exp_pos x). field. split; nra.
Qed.

Lemma tanh_lt x y : x < y -> tanh x < tanh y.
Proof.
  intros Hxy. rewrite !tanh_exp.
  assert (Hexp : exp (2 * x) < exp (2 * y)) by (apply exp_increasing; lra).
  pose proof (exp_pos (2 * x)). pose proof (exp_pos (2 * y)).
  apply Rmult_lt_reg_r with ((exp (2 * x) + 1) * (exp (2 * y) + 1)); [nra|].
  field_simplify; lra.
Qed.


(** On exact reals [tanh] stays strictly inside (-1, 1). *)
Lemma tanh_range x : -1 < tanh x < 1.
Proof.
  rewrite tanh_exp. pose proof (exp_pos (2 * x)) as He.
  split.
  - apply Rmult_lt_reg_r with (exp (2 * x) + 1); [lra|].
    field_simplify; lra.
  - apply Rmult_lt_reg_r with (exp (2 * x) + 1); [lra|].
    field_simplify; lra.
Qed.

Lemma smoothabs_arg_pos x : 0 < square x + 10e-16.
Proof. unfold square. nra. Qed.

Lemma smoothabs_pos x : 0 < smoothabs x.
Proof. apply sqrt_lt_R0, smoothabs_arg_pos. Qed.

Lemma smoothabs_0 : smoothabs 0 = sqrt 1e-15.
Proof. unfold smoothabs, square. f_equal. lra. Qed.

Lemma smoothabs_opp x : smoothabs (- x) = smoothabs x.
Proof. unfold smoothabs, square. f_equal. ring. Qed.


(** [smoothabs] is the plain absolute value up to [sqrt 1e-15]. *)
Lemma smoothabs_above_abs x : Rabs x < smoothabs x.
Proof.
  rewrite <- sqrt_Rsqr_abs. unfold smoothabs.
  apply sqrt_lt_1_alt. unfold Rsqr, square. nra.
Qed.

Lemma sqrt_eps_bounds : 3.16e-8 < sqrt 1e-15 < 3.17e-8.
Proof.
  split.
  - apply Rle_lt_trans with (sqrt (3.16e-8 * 3.16e-8)).
    + rewrite sqrt_square; lra.
    + apply sqrt_lt_1_alt. lra.
  - apply Rlt_le_trans with (sqrt (3.17e-8 * 3.17e-8)).
    + apply sqrt_lt_1_alt. lra.
    + rewrite sqrt_square; lra.
Qed.

End RealFacts.

(** ** Arrays *)

Section ArrayFacts.

Lemma zip_with_length f a : forall b,
  length a = length b -> length (zip_with f a b) = length a.
Proof.
  induction a as [|x a IH]; intros [|y b] Hlen; simpl in *; try congruence.
  f_equal. apply IH. congruence.
Qed.

Lemma broadcast2_same_shape f a b :
  length a = length b -> broadcast2 f a b = Ok (zip_with f a b).
Proof.
  intros Hlen. unfold broadcast2. now rewrite Hlen, Nat.eqb_refl.
Qed.

Lemma sub_vec3 a b :
  length a = 3%nat -> length b = 3%nat ->
  exists x y z, sub a b = Ok [x; y; z].
Proof.
  intros Ha Hb.
  destruct a as [|a0 [|a1 [|a2 [|? ?]]]]; try discriminate.
  destruct b as [|b0 [|b1 [|b2 [|? ?]]]]; try discriminate.
  now exists (a0 - b0), (a1 - b1), (a2 - b2).
Qed.

Lemma slice_pose_position (p : array) :
  length p = 6%nat -> length (slice p 0 3) = 3%nat.
Proof.
  intros Hp. do 7 (destruct p as [|? p]; try discriminate). reflexivity.
Qed.

Lemma slice_pose_angles (p : array) :
  length p = 6%nat -> exists phi theta psi, slice_from p 3 = [phi; theta; psi].
Proof.
  intros Hp. do 7 (destruct p as [|? p]; try discriminate).
  unfold slice_from. simpl. eauto.
Qed.

End ArrayFacts.

(** ** The reward *)

Section RewardFacts.

Context {S : Type} `{PhysicsSim S}.

Lemma wrap_once_above a : PI < a -> wrap_once a = a - 2 * PI.
Proof. intros Ha. unfold wrap_once. destruct (Rgt_dec a PI); lra. Qed.

Lemma wrap_once_below a : a <= PI -> wrap_once a = a.
Proof. intros Ha. unfold wrap_once. destruct (Rgt_dec a PI); lra. Qed.

Lemma PI_gt_2 : 2 < PI.
Proof. pose proof PI2_1. lra. Qed.

(** What a call of [calc_reward] returns once the position has the
    target's shape and there are a roll and a pitch to read. *)
Lemma calc_reward_returns (self : Task S) time position velocities phi theta rest :
  length (target_pos self) = 3%nat -> length position = 3%nat ->
  exists d,
    calc_reward self time position (phi :: theta :: rest) velocities =
    Ok (set_highanglepunishment (set_distpunishment self d)
          (smoothabs (wrap_once theta) + smoothabs (wrap_once phi)),
        [tanh (2 - (smoothabs (wrap_once theta) + smoothabs (wrap_once phi)))]).
Proof.
  intros Ht Hp.
  destruct (sub_vec3 _ _ Ht Hp) as (x & y & z & Hsub).
  unfold calc_reward. rewrite Hsub. simpl. eauto.
Qed.

Lemma calc_reward_keeps (self self' : Task S) time position angles velocities r :
  calc_reward self time position angles velocities = Ok (self', r) ->
  sim self' = sim self /\ action_repeat self' = action_repeat self /\
  target_pos self' = target_pos self /\ suminitdist self' = suminitdist self /\
  initvec2tgt self' = initvec2tgt self /\ initdist2tgt self' = initdist2tgt self.
Proof.
  unfold calc_reward. intros Hc.
  destruct (sub (target_pos self) position); simpl in Hc; [|discriminate].
  destruct (getitem angles 0); simpl in Hc; [|discriminate].
  destruct (getitem angles 1); simpl in Hc; [|discriminate].
  injection Hc as <- _. simpl. repeat split.
Qed.

End RewardFacts.

Section RewardClaims.

Context {S : Type} `{PhysicsSim S}.

(** C5: the array [calc_reward] returns is determined by the roll and pitch
    it is given.  Two calls with the same angles, on any two instances and
    with any times, any two positions and any velocities, return the same
    reward [tanh (2 - highanglepunishment)]; the position only reaches the
    stored [distpunishment] attribute ([d1] against [d2]). *)
Theorem calc_reward_angles_only :
  forall (self1 self2 : Task S) (time1 time2 : R)
         (position1 position2 velocities1 velocities2 : array)
         (roll pitch : R) (rest : array),
    length (target_pos self1) = 3%nat -> length (target_pos self2) = 3%nat ->
    length position1 = 3%nat -> length position2 = 3%nat ->
    exists d1 d2 hap,
      calc_reward self1 time1 position1 (roll :: pitch :: rest) velocities1 =
        Ok (set_highanglepunishment (set_distpunishment self1 d1) hap,
            [tanh (2 - hap)]) /\
      calc_reward self2 time2 position2 (roll :: pitch :: rest) velocities2 =
        Ok (set_highanglepunishment (set_distpunishment self2 d2) hap,
            [tanh (2 - hap)]) /\
      hap = smoothabs (wrap_once pitch) + smoothabs (wrap_once roll).
Proof.
  intros self1 self2 time1 time2 p1 p2 v1 v2 roll pitch rest Ht1 Ht2 Hp1 Hp2.
  destruct (calc_reward_returns self1 time1 p1 v1 roll pitch rest Ht1 Hp1)
    as [d1 Hc1].
  destruct (calc_reward_returns self2 time2 p2 v2 roll pitch rest Ht2 Hp2)
    as [d2 Hc2].
  exists d1, d2, (smoothabs (wrap_once pitch) + smoothabs (wrap_once roll)).
  auto.
Qed.


(** C10: level flight.  With roll and pitch both 0 the only punishment is
    [smoothabs 0 = sqrt 1e-15] (about 3.16e-8) per angle, and the reward
    [tanh (2 - 2 * sqrt 1e-15)] is 0.9640276 to seven decimals, within
    1e-7 of [tanh 2]. *)
Theorem calc_reward_level :
  forall (self : Task S) (time : R) (position velocities rest : array),
    length (target_pos self) = 3%nat -> length position = 3%nat ->
    exists s r,
      calc_reward self time position (0 :: 0 :: rest) velocities = Ok (s, [r]) /\
      highanglepunishment s = Some (smoothabs 0 + smoothabs 0) /\
      r = tanh (2 - (smoothabs 0 + smoothabs 0)) /\
      smoothabs 0 = sqrt 1e-15 /\
      3.16e-8 < smoothabs 0 < 3.17e-8 /\
      Rabs (r - 0.9640276) < 5e-8 /\
      Rabs (r - tanh 2) < 1e-7.
Proof.
  intros self time position velocities rest Ht Hp.
  destruct (calc_reward_returns self time position velocities 0 0 rest Ht Hp)
    as [d E].
  pose proof PI_gt_2 as Hpi.
  rewrite (wrap_once_below 0) in E by lra.
  pose proof sqrt_eps_bounds as [Hlo Hhi].
  pose proof ExpBoundsFacts.exp4_lower as H4l.
  pose proof ExpBoundsFacts.exp4_upper as H4u.
  assert (Hbounds : forall e, 0 <= e <= 6.4e-8 ->
            0.96402755 < tanh (2 - e) < 0.96402765).
  { intros e He. rewrite tanh_exp.
    replace (2 * (2 - e)) with (4 + - (2 * e)) by ring.
    rewrite exp_plus.
    pose proof (exp_ineq1_le (- (2 * e))) as Hl.
    assert (Hu : exp (- (2 * e)) <= 1).
    { rewrite <- exp_0. destruct (Req_dec e 0) as [-> | Hne].
      - right. f_equal. ring.
      - left. apply exp_increasing. lra. }
    pose proof (exp_pos (- (2 * e))) as Hpos.
    set (E4 := exp 4) in *. set (Ee := exp (- (2 * e))) in *.
    assert (Hprod_lo : 54.59811 < E4 * Ee) by nra.
    assert (Hprod_hi : E4 * Ee < 54.59816) by nra.
    set (P := E4 * Ee) in *.
    split.
    - apply Rmult_lt_reg_r with (P + 1); [lra|]. field_simplify; lra.
    - apply Rmult_lt_reg_r with (P + 1); [lra|]. field_simplify; lra. }
  rewrite smoothabs_0 in *.
  eexists _, _. split; [exact E|]. simpl.
  split; [reflexivity|]. split; [reflexivity|]. split; [reflexivity|].
  split; [lra|].
  pose proof (Hbounds (sqrt 1e-15 + sqrt 1e-15) ltac:(lra)) as B1.
  pose proof (Hbounds 0 ltac:(lra)) as B2.
  rewrite Rminus_0_r in B2.
  split; apply Rabs_def1; lra.
Qed.

End RewardClaims.

(** ** step *)

Section StepFacts.

Context {S : Type} `{PhysicsSim S}.

Lemma same_goal_refl (self : Task S) : same_goal self self.
Proof. repeat split. Qed.

Lemma same_goal_trans (a b c : Task S) :
  same_goal a b -> same_goal b c -> same_goal a c.
Proof.
  unfold same_goal. intros (?&?&?&?&?) (?&?&?&?&?).
  repeat split; congruence.
Qed.

Lemma same_goal_set_sim (self : Task S) s : same_goal self (set_sim self s).
Proof. repeat split. Qed.

Lemma get_reward_keeps (self self' : Task S) r :
  get_reward self = Ok (self', r) -> sim self' = sim self /\ same_goal self self'.
Proof.
  unfold get_reward. intros Hc. apply calc_reward_keeps in Hc.
  unfold same_goal. intuition.
Qed.

Lemma get_reward_returns (self : Task S) :
  length (target_pos self) = 3%nat -> length (sim_pose (sim self)) = 6%nat ->
  exists self' r, get_reward self = Ok (self', [r]).
Proof.
  intros Ht Hp.
  destruct (slice_pose_angles _ Hp) as (phi & theta & psi & Hang).
  unfold get_reward. rewrite Hang.
  destruct (calc_reward_returns self (sim_time (sim self))
              (slice (sim_pose (sim self)) 0 3) (sim_v (sim self))
              phi theta [psi] Ht (slice_pose_position _ Hp)) as [d Hc].
  rewrite Hc. eauto.
Qed.

Lemma iadd_one x total r :
  reward_so_far x total -> iadd x [r] = Ok (Arr [total + r]).
Proof. intros [-> | ->]; reflexivity. Qed.

(** One sub-step: the simulator advances, the reward of the new pose is
    added, the new pose and angular velocity are appended. *)
Lemma step_body_returns `{!PhysicsSimShapes S} rs (l : step_locals) total :
  length (target_pos (l_self l)) = 3%nat ->
  reward_so_far (l_reward l) total ->
  exists self' r,
    get_reward (set_sim (l_self l) (fst (next_timestep (sim (l_self l)) rs)))
      = Ok (self', [r]) /\
    step_body rs l =
      Ok (mkLocals self' (Arr [total + r])
            (l_pose_all l ++
               [sim_pose (fst (next_timestep (sim (l_self l)) rs));
                sim_angular_v (fst (next_timestep (sim (l_self l)) rs))])
            (Some (snd (next_timestep (sim (l_self l)) rs)))).
Proof.
  intros Ht Hacc. unfold step_body.
  destruct (next_timestep (sim (l_self l)) rs) as [s' done] eqn:Hnext.
  assert (Hs' : s' = fst (next_timestep (sim (l_self l)) rs)) by now rewrite Hnext.
  simpl fst. simpl snd.
  destruct (get_reward_returns (set_sim (l_self l) s')) as (self' & r & Hr).
  - exact Ht.
  - simpl. rewrite Hs'. apply pose_shape.
  - exists self', r. split; [exact Hr|].
    rewrite Hr. simpl.
    rewrite (iadd_one _ total r Hacc). simpl.
    apply get_reward_keeps in Hr. destruct Hr as [Hsim _].
    simpl in Hsim. now rewrite Hsim.
Qed.

Lemma rotor_speeds_five a0 a1 a2 a3 a4 :
  rotor_speeds [a0; a1; a2; a3; a4] =
  Ok [Rmax (a0 + a1) 1; Rmax (a0 + a2) 1; Rmax (a0 + a3) 1; Rmax (a0 + a4) 1].
Proof. reflexivity. Qed.

(** A whole call of [step] with [action_repeat = 3]. *)
Lemma step_three_substeps `{!PhysicsSimShapes S} (self : Task S) (actions : array) :
  action_repeat self = 3%nat ->
  length (target_pos self) = 3%nat ->
  length actions = 5%nat ->
  exists rs s1 s2 s3 d1 d2 d3 self1 self2 self3 r1 r2 r3,
    rotor_speeds actions = Ok rs /\
    sim_trace 3 (sim self) rs = [(s1, d1); (s2, d2); (s3, d3)] /\
    get_reward (set_sim self s1) = Ok (self1, [r1]) /\
    get_reward (set_sim self1 s2) = Ok (self2, [r2]) /\
    get_reward (set_sim self2 s3) = Ok (self3, [r3]) /\
    step self actions =
      Ok (self3,
          (sim_pose s1 ++ sim_angular_v s1 ++ sim_pose s2 ++ sim_angular_v s2 ++
           sim_pose s3 ++ sim_angular_v s3,
           Arr [0 + r1 + r2 + r3], d3)) /\
    same_goal self self3.
Proof.
  intros Hrep Ht Hact.
  destruct actions as [|a0 [|a1 [|a2 [|a3 [|a4 [|? ?]]]]]]; try discriminate.
  set (rs := [Rmax (a0 + a1) 1; Rmax (a0 + a2) 1; Rmax (a0 + a3) 1; Rmax (a0 + a4) 1]).
  set (l0 := mkLocals self (Scalar 0) [] None).
  destruct (step_body_returns rs l0 0 Ht (or_introl eq_refl))
    as (self1 & r1 & G1 & B1).
  simpl in G1, B1.
  set (s1 := fst (next_timestep (sim self) rs)) in *.
  set (d1 := snd (next_timestep (sim self) rs)) in *.
  pose proof (get_reward_keeps _ _ _ G1) as [Hsim1 Hgoal1]. simpl in Hsim1.
  set (l1 := mkLocals self1 (Arr [0 + r1]) [sim_pose s1; sim_angular_v s1] (Some d1)) in *.
  assert (Ht1 : length (target_pos self1) = 3%nat).
  { destruct Hgoal1 as (_ & -> & _). exact Ht. }
  destruct (step_body_returns rs l1 (0 + r1) Ht1 (or_intror eq_refl))
    as (self2 & r2 & G2 & B2).
  simpl in G2, B2. rewrite Hsim1 in G2, B2.
  set (s2 := fst (next_timestep s1 rs)) in *.
  set (d2 := snd (next_timestep s1 rs)) in *.
  pose proof (get_reward_keeps _ _ _ G2) as [Hsim2 Hgoal2]. simpl in Hsim2.
  set (l2 := mkLocals self2 (Arr [0 + r1 + r2])
               [sim_pose s1; sim_angular_v s1; sim_pose s2; sim_angular_v s2]
               (Some d2)) in *.
  assert (Ht2 : length (target_pos self2) = 3%nat).
  { destruct Hgoal2 as (_ & -> & _). exact Ht1. }
  destruct (step_body_returns rs l2 (0 + r1 + r2) Ht2 (or_intror eq_refl))
    as (self3 & r3 & G3 & B3).
  simpl in G3, B3. rewrite Hsim2 in G3, B3.
  set (s3 := fst (next_timestep s2 rs)) in *.
  set (d3 := snd (next_timestep s2 rs)) in *.
  pose proof (get_reward_keeps _ _ _ G3) as [Hsim3 Hgoal3].
  exists rs, s1, s2, s3, d1, d2, d3, self1, self2, self3, r1, r2, r3.
  split; [reflexivity|].
  split.
  { simpl. subst s1 s2 s3 d1 d2 d3.
    repeat (f_equal; try apply surjective_pairing). }
  repeat (split; [assumption|]).
  split.
  - unfold step. rewrite rotor_speeds_five. fold rs. simpl bind at 1.
    rewrite Hrep. simpl step_loop. fold l0. rewrite B1. simpl bind at 1.
    rewrite B2. simpl bind at 1. rewrite B3. simpl.
    rewrite app_nil_r. reflexivity.
  - eapply same_goal_trans; [|exact Hgoal3].
    eapply same_goal_trans; [|apply same_goal_set_sim].
    eapply same_goal_trans; [|exact Hgoal2].
    eapply same_goal_trans; [|apply same_goal_set_sim].
    eapply same_goal_trans; [|exact Hgoal1].
    apply same_goal_set_sim.
Qed.

End StepFacts.

Section StepInvariance.

Context {S : Type} `{PhysicsSim S}.

Lemma step_body_keeps rs (l l' : step_locals) :
  step_body rs l = Ok l' -> same_goal (l_self l) (l_self l').
Proof.
  unfold step_body.
  destruct (next_timestep (sim (l_self l)) rs) as [s' done].
  destruct (get_reward (set_sim (l_self l) s')) as [[self' r]|] eqn:Hr;
    simpl; [|discriminate].
  destruct (iadd (l_reward l) r); simpl; [|discriminate].
  intros [= <-]. simpl.
  apply get_reward_keeps in Hr. destruct Hr as [_ Hgoal].
  eapply same_goal_trans; [apply same_goal_set_sim | exact Hgoal].
Qed.

Lemma step_loop_keeps n rs : forall (l l' : step_locals),
  step_loop n rs l = Ok l' -> same_goal (l_self l) (l_self l').
Proof.
  induction n as [|n IH]; intros l l'; simpl.
  - intros [= <-]. apply same_goal_refl.
  - destruct (step_body rs l) as [l1|] eqn:Hb; simpl; [|discriminate].
    intros Hl. apply step_body_keeps in Hb. apply IH in Hl.
    eapply same_goal_trans; eassumption.
Qed.

Lemma step_keeps (self self' : Task S) actions out :
  step self actions = Ok (self', out) -> same_goal self self'.
Proof.
  unfold step.
  destruct (rotor_speeds actions) as [rs|]; simpl; [|discriminate].
  destruct (step_loop (action_repeat self) rs _) as [l|] eqn:Hl; simpl;
    [|discriminate].
  destruct (concatenate (l_pose_all l)); simpl; [|discriminate].
  destruct (l_done l); [|discriminate].
  intros [= <- _]. apply step_loop_keeps in Hl. exact Hl.
Qed.

Lemma get_max_reward_keeps (self self' : Task S) r :
  get_max_reward self = Ok (self', r) -> same_goal self self'.
Proof.
  unfold get_max_reward.
  destruct (calc_reward self 1e8 (target_pos self) (zeros 3) (zeros 3))
    as [[s1 r1]|] eqn:Hc; simpl; [|discriminate].
  intros [= <- _]. apply calc_reward_keeps in Hc.
  unfold same_goal. intuition.
Qed.

End StepInvariance.

Section TraceFacts.

Context {S : Type} `{PhysicsSim S}.

Lemma sim_trace_three (s s1 s2 s3 : S) rs d1 d2 d3 :
  sim_trace 3 s rs = [(s1, d1); (s2, d2); (s3, d3)] ->
  next_timestep s rs = (s1, d1) /\
  next_timestep s1 rs = (s2, d2) /\
  next_timestep s2 rs = (s3, d3).
Proof.
  simpl. intros Htr. injection Htr as E1 E2 E3.
  rewrite E1 in E2, E3. simpl in E2, E3.
  rewrite E2 in E3. simpl in E3. auto.
Qed.

End TraceFacts.

Section StepClaims.

Context {S : Type} `{PhysicsSim S} `{!PhysicsSimShapes S}.

(** C2, as the code has it: [done] is assigned anew at every sub-step, so
    [step] returns the flag of the last of its 3 sub-steps; that is the
    disjunction over the sub-steps when the simulator latches its flag. *)
Theorem step_done_is_last_substep :
  forall (self : Task S) (actions : array),
    action_repeat self = 3%nat ->
    length (target_pos self) = 3%nat ->
    length actions = 5%nat ->
    exists rs d1 d2 d3 self' next_state reward,
      rotor_speeds actions = Ok rs /\
      reported_done 3 (sim self) rs = [d1; d2; d3] /\
      step self actions = Ok (self', (next_state, reward, d3)) /\
      (latched_done -> d3 = existsb (fun d => d) [d1; d2; d3]).
Proof.
  intros self actions Hrep Ht Hact.
  destruct (step_three_substeps self actions Hrep Ht Hact)
    as (rs & s1 & s2 & s3 & d1 & d2 & d3 & self1 & self2 & self3 &
        r1 & r2 & r3 & Hrs & Htr & _ & _ & _ & Hstep & _).
  exists rs, d1, d2, d3. do 3 eexists.
  split; [exact Hrs|]. split; [unfold reported_done; now rewrite Htr|].
  split; [exact Hstep|].
  intros Hlatch.
  destruct (sim_trace_three _ _ _ _ _ _ _ _ Htr) as (E1 & E2 & E3).
  pose proof (Hlatch (sim self) rs rs) as L1. rewrite E1 in L1. simpl in L1.
  rewrite E2 in L1. simpl in L1.
  pose proof (Hlatch s1 rs rs) as L2. rewrite E2 in L2. simpl in L2.
  rewrite E3 in L2. simpl in L2.
  destruct d1, d2, d3; simpl; try reflexivity;
    solve [discriminate (L1 eq_refl) | discriminate (L2 eq_refl)].
Qed.

(** C7: with [action_repeat = 3], [step] returns the 27 numbers
    pose, angular velocity of sub-step 1, then of sub-step 2, then of
    sub-step 3, and the plain sum [r1 + r2 + r3] of the rewards computed
    after each sub-step. *)
Theorem step_state_and_total_reward :
  forall (self : Task S) (actions : array),
    action_repeat self = 3%nat ->
    length (target_pos self) = 3%nat ->
    length actions = 5%nat ->
    exists rs s1 s2 s3 d1 d2 d3 self1 self2 self3 r1 r2 r3 next_state total,
      rotor_speeds actions = Ok rs /\
      sim_trace 3 (sim self) rs = [(s1, d1); (s2, d2); (s3, d3)] /\
      get_reward (set_sim self s1) = Ok (self1, [r1]) /\
      get_reward (set_sim self1 s2) = Ok (self2, [r2]) /\
      get_reward (set_sim self2 s3) = Ok (self3, [r3]) /\
      step self actions = Ok (self3, (next_state, Arr [total], d3)) /\
      next_state =
        sim_pose s1 ++ sim_angular_v s1 ++ sim_pose s2 ++ sim_angular_v s2 ++
        sim_pose s3 ++ sim_angular_v s3 /\
      length next_state = 27%nat /\
      total = r1 + r2 + r3.
Proof.
  intros self actions Hrep Ht Hact.
  destruct (step_three_substeps self actions Hrep Ht Hact)
    as (rs & s1 & s2 & s3 & d1 & d2 & d3 & self1 & self2 & self3 &
        r1 & r2 & r3 & Hrs & Htr & G1 & G2 & G3 & Hstep & _).
  exists rs, s1, s2, s3, d1, d2, d3, self1, self2, self3, r1, r2, r3.
  do 2 eexists.
  repeat (split; [eassumption|]).
  split; [reflexivity|].
  split; [|lra].
  destruct (sim_trace_three _ _ _ _ _ _ _ _ Htr) as (E1 & E2 & E3).
  assert (F1 : s1 = fst (next_timestep (sim self) rs)) by now rewrite E1.
  assert (F2 : s2 = fst (next_timestep s1 rs)) by now rewrite E2.
  assert (F3 : s3 = fst (next_timestep s2 rs)) by now rewrite E3.
  rewrite !length_app.
  rewrite F1 at 1 2. rewrite F2 at 1 2. rewrite F3.
  rewrite !pose_shape, !angular_v_shape. reflexivity.
Qed.

(** C8: each rotor speed is the throttle plus the rotor's own delta,
    floored at 1.0, and these are the speeds every sub-step of [step]
    hands to the simulator; the action [0, -5, -5, -5, -5] gives
    [1, 1, 1, 1]. *)
Theorem rotor_speeds_floor :
  forall (self : Task S) (a0 a1 a2 a3 a4 : R),
    let rs := [Rmax (a0 + a1) 1; Rmax (a0 + a2) 1;
               Rmax (a0 + a3) 1; Rmax (a0 + a4) 1] in
    rotor_speeds [a0; a1; a2; a3; a4] = Ok rs /\
    step self [a0; a1; a2; a3; a4] =
      (l <- step_loop (action_repeat self) rs (mkLocals self (Scalar 0) [] None) ;;
       next_state <- concatenate (l_pose_all l) ;;
       match l_done l with
       | Some done => Ok (l_self l, (next_state, l_reward l, done))
       | None => Raise UnboundLocalError
       end) /\
    rotor_speeds [0; -5; -5; -5; -5] = Ok [1; 1; 1; 1].
Proof.
  intros self a0 a1 a2 a3 a4 rs. split; [reflexivity|]. split; [reflexivity|].
  rewrite rotor_speeds_five. do 5 f_equal;
    try (replace (0 + -5) with (-5) by lra; apply Rmax_right; lra).
Qed.

End StepClaims.

(** ** __init__ and reset *)

Section InitResetFacts.

Context {S : Type} `{PhysicsSim S}.

Lemma Rmax_floor x : 5 <= Rmax x 5.
Proof. apply Rmax_r. Qed.

Lemma Task_init_returns p0 p1 p2 p3 p4 p5 t0 t1 t2 iv iav rt tv :
  exists self : Task S,
    Task_init (Some [p0; p1; p2; p3; p4; p5]) iv iav rt (Some [t0; t1; t2]) tv
      = Ok self /\
    target_pos self = [t0; t1; t2] /\
    initvec2tgt self = [t0 - p0; t1 - p1; t2 - p2] /\
    suminitdist self = Rmax (sum (map Rabs (initvec2tgt self))) 5 /\
    initdist2tgt self = Rmax (mag (initvec2tgt self)) 5.
Proof. eexists. split; [reflexivity|]. simpl. repeat split. Qed.

Lemma Task_init_invariant ip iv iav rt tp tv (self : Task S) :
  Task_init ip iv iav rt tp tv = Ok self ->
  5 <= suminitdist self /\ action_repeat self = 3%nat.
Proof.
  unfold Task_init.
  destruct ip as [pose0|]; simpl; [|discriminate].
  destruct tp as [tgt|]; simpl; [|discriminate].
  destruct (sub tgt (slice pose0 0 3)); simpl; [|discriminate].
  intros [= <-]. simpl. split; [apply Rmax_floor | reflexivity].
Qed.

Lemma reset_invariant (self self' : Task S) new_tgt_pos state :
  reset self new_tgt_pos = Ok (self', state) ->
  5 <= suminitdist self /\ action_repeat self = 3%nat ->
  5 <= suminitdist self' /\ action_repeat self' = 3%nat.
Proof.
  unfold reset. intros Hr Hinv.
  destruct (concatenate _); simpl in Hr; [|discriminate].
  destruct new_tgt_pos as [t|].
  - destruct (sub t _); simpl in Hr; [|discriminate].
    injection Hr as <- _. simpl. split; [apply Rmax_floor | apply Hinv].
  - injection Hr as <- _. exact Hinv.
Qed.

(** [suminitdist >= 5] and [action_repeat = 3] hold of every instance any
    sequence of calls can produce. *)
Lemma reachable_invariant (self : Task S) :
  reachable self -> 5 <= suminitdist self /\ action_repeat self = 3%nat.
Proof.
  induction 1 as [ip iv iav rt tp tv self Hinit
                 | self new self' state _ IH Hreset
                 | self actions self' out _ IH Hstep
                 | self time position angles velocities self' r _ IH Hc
                 | self self' r _ IH Hg
                 | self self' r _ IH Hm].
  - eapply Task_init_invariant; eassumption.
  - eapply reset_invariant; eassumption.
  - apply step_keeps in Hstep. destruct Hstep as (-> & _ & _ & -> & _). exact IH.
  - apply calc_reward_keeps in Hc. destruct Hc as (_ & -> & _ & -> & _). exact IH.
  - apply get_reward_keeps in Hg. destruct Hg as (_ & -> & _ & _ & -> & _).
    exact IH.
  - apply get_max_reward_keeps in Hm. destruct Hm as (-> & _ & _ & -> & _).
    exact IH.
Qed.

(** The new-target branch of [reset] on a three-component target and a
    six-component initial pose. *)
Lemma reset_new_target `{!PhysicsSimResets S} (self : Task S)
    t0 t1 t2 p0 p1 p2 p3 p4 p5 :
  action_repeat self = 3%nat ->
  sim_init_pose (sim self) = [p0; p1; p2; p3; p4; p5] ->
  exists state,
    reset self (Some [t0; t1; t2]) =
    Ok (set_target (set_sim self (sim_reset (sim self))) [t0; t1; t2]
          [t0 - p0; t1 - p1; t2 - p2]
          (Rmax (sum (map smoothabs [t0 - p0; t1 - p1; t2 - p2])) 5)
          (mag [t0 - p0; t1 - p1; t2 - p2]),
        state).
Proof.
  intros Hrep Hpose. unfold reset. simpl.
  rewrite Hrep, reset_pose, Hpose. simpl. eauto.
Qed.

Lemma mag_unit_z : mag [0 - 0; 0 - 0; 1 - 0] = 1.
Proof.
  unfold mag, dot, sum. simpl.
  replace (0 + (0 - 0) * (0 - 0) + (0 - 0) * (0 - 0) + (1 - 0) * (1 - 0))
    with 1 by lra.
  apply sqrt_1.
Qed.

Lemma sum_abs_z10 : sum (map Rabs [0 - 0; 0 - 0; 10 - 0]) = 10.
Proof.
  unfold sum. simpl.
  replace (0 - 0) with 0 by lra. replace (10 - 0) with 10 by lra.
  rewrite Rabs_R0, (Rabs_right 10) by lra. lra.
Qed.

Lemma sum_smoothabs_z10 : 10 < sum (map smoothabs [0 - 0; 0 - 0; 10 - 0]).
Proof.
  unfold sum. simpl.
  pose proof (smoothabs_pos (0 - 0)).
  pose proof (smoothabs_above_abs (10 - 0)) as Habs.
  replace (10 - 0) with 10 in * by lra.
  rewrite (Rabs_right 10) in Habs by lra. lra.
Qed.

End InitResetFacts.

Section InitResetClaims.

Context {S : Type} `{PhysicsSim S}.

(** C3, evaluated on the code: without [target_pos] the constructor does
    not return.  Line 50 gives [self.target_pos] its default, but line 53
    subtracts from the parameter [target_pos], which is still [None]. *)
Theorem Task_init_without_target_raises :
  forall (init_pose init_velocities init_angle_velocities : option array)
         (runtime : R) (target_vel : option array),
    Task_init (S := S) init_pose init_velocities init_angle_velocities runtime
              None target_vel
    = Raise TypeError.
Proof. intros [pose0|] iv iav rt tv; reflexivity. Qed.

(** C1, evaluated on the code: from the origin, [reset] with the target
    [0, 0, 1] leaves [initdist2tgt = 1], below the floor 5.0 that the
    constructor applies to the same vector; and with the target
    [0, 0, 10] it leaves a [suminitdist] above 10, the floored plain
    absolute sum. *)
Theorem reset_skips_distance_floor `{!PhysicsSimResets S} :
  forall self : Task S,
    action_repeat self = 3%nat ->
    sim_init_pose (sim self) = [0; 0; 0; 0; 0; 0] ->
    (exists self' state,
        reset self (Some [0; 0; 1]) = Ok (self', state) /\
        initvec2tgt self' = [0 - 0; 0 - 0; 1 - 0] /\
        initdist2tgt self' = 1 /\
        Rmax (mag (initvec2tgt self')) 5 = 5) /\
    (exists self' state,
        reset self (Some [0; 0; 10]) = Ok (self', state) /\
        initvec2tgt self' = [0 - 0; 0 - 0; 10 - 0] /\
        10 < suminitdist self' /\
        Rmax (sum (map Rabs (initvec2tgt self'))) 5 = 10).
Proof.
  intros self Hrep Hpose. split.
  - destruct (reset_new_target self 0 0 1 0 0 0 0 0 0 Hrep Hpose) as [state Hr].
    eexists _, state. split; [exact Hr|].
    unfold set_target; cbn [initvec2tgt initdist2tgt].
    split; [reflexivity|]. rewrite mag_unit_z.
    split; [reflexivity|]. apply Rmax_right. lra.
  - destruct (reset_new_target self 0 0 10 0 0 0 0 0 0 Hrep Hpose) as [state Hr].
    eexists _, state. split; [exact Hr|].
    unfold set_target; cbn [initvec2tgt suminitdist].
    split; [reflexivity|]. rewrite sum_abs_z10.
    split; [|apply Rmax_left; lra].
    eapply Rlt_le_trans; [apply sum_smoothabs_z10 | apply Rmax_l].
Qed.

(** C9: [suminitdist >= 5.0] holds after construction and after every
    later call, every [reset] included; and [reset] with a new target [t]
    leaves [initvec2tgt = t - sim.init_pose[:3]]. *)
Theorem suminitdist_floor_invariant `{!PhysicsSimResets S} :
  forall self : Task S,
    reachable self ->
    5 <= suminitdist self /\
    (forall new_tgt_pos self' state,
        reset self new_tgt_pos = Ok (self', state) -> 5 <= suminitdist self') /\
    (forall t0 t1 t2 p0 p1 p2 p3 p4 p5,
        sim_init_pose (sim self) = [p0; p1; p2; p3; p4; p5] ->
        exists self' state,
          reset self (Some [t0; t1; t2]) = Ok (self', state) /\
          target_pos self' = [t0; t1; t2] /\
          initvec2tgt self' = [t0 - p0; t1 - p1; t2 - p2] /\
          5 <= suminitdist self').
Proof.
  intros self Hreach.
  destruct (reachable_invariant self Hreach) as [Hfloor Hrep].
  split; [exact Hfloor|]. split.
  - intros new self' state Hr.
    eapply reset_invariant; [exact Hr | now split].
  - intros t0 t1 t2 p0 p1 p2 p3 p4 p5 Hpose.
    destruct (reset_new_target self t0 t1 t2 p0 p1 p2 p3 p4 p5 Hrep Hpose)
      as [state Hr].
    eexists _, state. split; [exact Hr|]. simpl.
    repeat split. apply Rmax_floor.
Qed.

End InitResetClaims.

(** ** The tick simulators *)

Section TickSimFacts.

Import TickSim.

Lemma tick_sim_shapes f : @PhysicsSimShapes nat (tick_sim f).
Proof. constructor; reflexivity. Qed.

Lemma tick_sim_resets f : @PhysicsSimResets nat (tick_sim f).
Proof. constructor; reflexivity. Qed.

Lemma timeout_latched : @latched_done nat timeout.
Proof.
  intros s rs rs'. simpl. destruct s as [|[|s]]; simpl; congruence.
Qed.

Lemma demo_task_built f :
  @Task_init nat (tick_sim f) (Some [0; 0; 0; 0; 0; 0]) None None 5
             (Some [0; 0; 10]) None
  = Ok demo_task.
Proof.
  unfold Task_init. cbn [as_array bind].
  change (sub [0; 0; 10] (slice [0; 0; 0; 0; 0; 0] 0 3))
    with (Ok [0 - 0; 0 - 0; 10 - 0]).
  cbn [bind]. unfold demo_task. f_equal. f_equal; try reflexivity.
  - repeat f_equal; lra.
  - rewrite sum_abs_z10. apply Rmax_left. lra.
  - unfold mag, dot, sum. simpl.
    replace (0 + (0 - 0) * (0 - 0) + (0 - 0) * (0 - 0) + (10 - 0) * (10 - 0))
      with (10 * 10) by lra.
    rewrite sqrt_square by lra. apply Rmax_left. lra.
Qed.

Lemma demo_task_reachable f : @reachable nat (tick_sim f) demo_task.
Proof. eapply reach_init. apply demo_task_built. Qed.

End TickSimFacts.

(** ** The claims on concrete runs *)

Section Runs.

Import TickSim.

Lemma reset_skips_distance_floor_witness :
  action_repeat demo_task = 3%nat /\
  @sim_init_pose nat blip (sim demo_task) = [0; 0; 0; 0; 0; 0] /\
  (exists self' state,
      @reset nat blip demo_task (Some [0; 0; 1]) = Ok (self', state) /\
      initvec2tgt self' = [0 - 0; 0 - 0; 1 - 0] /\
      initdist2tgt self' = 1 /\
      Rmax (mag (initvec2tgt self')) 5 = 5) /\
  (exists self' state,
      @reset nat blip demo_task (Some [0; 0; 10]) = Ok (self', state) /\
      initvec2tgt self' = [0 - 0; 0 - 0; 10 - 0] /\
      10 < suminitdist self' /\
      Rmax (sum (map Rabs (initvec2tgt self'))) 5 = 10).
Proof.
  split; [reflexivity|]. split; [reflexivity|].
  apply (@reset_skips_distance_floor nat blip (tick_sim_resets _) demo_task);
    reflexivity.
Defined.

(** C2, as stated, fails: on the simulator that reports done at its first
    timestep only, [step] returns [done = False] although sub-step 1
    reported done. *)
Lemma step_done_not_accumulated :
  ~ (forall rs self' next_state reward done,
        rotor_speeds [400; 0; 0; 0; 0] = Ok rs ->
        @step nat blip demo_task [400; 0; 0; 0; 0]
          = Ok (self', (next_state, reward, done)) ->
        existsb (fun d => d) (@reported_done nat blip 3 (sim demo_task) rs) = true ->
        done = true).
Proof.
  intros Hclaim.
  destruct (@step_three_substeps nat blip (tick_sim_shapes _) demo_task
              [400; 0; 0; 0; 0] eq_refl eq_refl eq_refl)
    as (rs & s1 & s2 & s3 & d1 & d2 & d3 & self1 & self2 & self3 &
        r1 & r2 & r3 & Hrs & Htr & _ & _ & _ & Hstep & _).
  simpl in Htr. injection Htr as _ _ _ _ _ <-.
  specialize (Hclaim rs _ _ _ _ Hrs Hstep eq_refl).
  discriminate Hclaim.
Qed.

Lemma step_done_is_last_substep_witness :
  action_repeat demo_task = 3%nat /\
  length (target_pos demo_task) = 3%nat /\
  length [400; 0; 0; 0; 0] = 5%nat /\
  exists rs d1 d2 d3 self' next_state reward,
    rotor_speeds [400; 0; 0; 0; 0] = Ok rs /\
    @reported_done nat timeout 3 (sim demo_task) rs = [d1; d2; d3] /\
    @step nat timeout demo_task [400; 0; 0; 0; 0]
      = Ok (self', (next_state, reward, d3)) /\
    (@latched_done nat timeout -> d3 = existsb (fun d => d) [d1; d2; d3]).
Proof.
  repeat (split; [reflexivity|]).
  apply (@step_done_is_last_substep nat timeout (tick_sim_shapes _) demo_task
           [400; 0; 0; 0; 0]); reflexivity.
Defined.

Lemma calc_reward_angles_only_witness :
  length (target_pos demo_task) = 3%nat /\
  length [0; 0; 0] = 3%nat /\ length [1; 2; 3] = 3%nat /\
  exists d1 d2 hap,
    calc_reward demo_task 0 [0; 0; 0] [0.5; 0.25; 0] [0; 0; 0] =
      Ok (set_highanglepunishment (set_distpunishment demo_task d1) hap,
          [tanh (2 - hap)]) /\
    calc_reward demo_task 7 [1; 2; 3] [0.5; 0.25; 0] [0; 0; 1] =
      Ok (set_highanglepunishment (set_distpunishment demo_task d2) hap,
          [tanh (2 - hap)]) /\
    hap = smoothabs (wrap_once 0.25) + smoothabs (wrap_once 0.5).
Proof.
  repeat (split; [reflexivity|]).
  apply (@calc_reward_angles_only nat demo_task demo_task 0 7
           [0; 0; 0] [1; 2; 3] [0; 0; 0] [0; 0; 1] 0.5 0.25 [0]); reflexivity.
Defined.


Lemma calc_reward_level_witness :
  length (target_pos demo_task) = 3%nat /\ length [0; 0; 10] = 3%nat /\
  exists s r,
    calc_reward demo_task 1e8 [0; 0; 10] (0 :: 0 :: [0]) [0; 0; 0]
      = Ok (s, [r]) /\
    highanglepunishment s = Some (smoothabs 0 + smoothabs 0) /\
    r = tanh (2 - (smoothabs 0 + smoothabs 0)) /\
    smoothabs 0 = sqrt 1e-15 /\
    3.16e-8 < smoothabs 0 < 3.17e-8 /\
    Rabs (r - 0.9640276) < 5e-8 /\
    Rabs (r - tanh 2) < 1e-7.
Proof.
  repeat (split; [reflexivity|]).
  apply (@calc_reward_level nat demo_task 1e8 [0; 0; 10] [0; 0; 0] [0]);
    reflexivity.
Defined.

Lemma step_state_and_total_reward_witness :
  action_repeat demo_task = 3%nat /\
  length (target_pos demo_task) = 3%nat /\
  length [400; 1; -1; 0; 0] = 5%nat /\
  exists rs s1 s2 s3 d1 d2 d3 self1 self2 self3 r1 r2 r3 next_state total,
    rotor_speeds [400; 1; -1; 0; 0] = Ok rs /\
    @sim_trace nat blip 3 (sim demo_task) rs = [(s1, d1); (s2, d2); (s3, d3)] /\
    @get_reward nat blip (set_sim demo_task s1) = Ok (self1, [r1]) /\
    @get_reward nat blip (set_sim self1 s2) = Ok (self2, [r2]) /\
    @get_reward nat blip (set_sim self2 s3) = Ok (self3, [r3]) /\
    @step nat blip demo_task [400; 1; -1; 0; 0]
      = Ok (self3, (next_state, Arr [total], d3)) /\
    next_state =
      @sim_pose nat blip s1 ++ @sim_angular_v nat blip s1 ++
      @sim_pose nat blip s2 ++ @sim_angular_v nat blip s2 ++
      @sim_pose nat blip s3 ++ @sim_angular_v nat blip s3 /\
    length next_state = 27%nat /\
    total = r1 + r2 + r3.
Proof.
  repeat (split; [reflexivity|]).
  apply (@step_state_and_total_reward nat blip (tick_sim_shapes _) demo_task
           [400; 1; -1; 0; 0]); reflexivity.
Defined.

Lemma suminitdist_floor_invariant_witness :
  @reachable nat blip demo_task /\
  5 <= suminitdist demo_task /\
  (forall new_tgt_pos self' state,
      @reset nat blip demo_task new_tgt_pos = Ok (self', state) ->
      5 <= suminitdist self') /\
  (forall t0 t1 t2 p0 p1 p2 p3 p4 p5,
      @sim_init_pose nat blip (sim demo_task) = [p0; p1; p2; p3; p4; p5] ->
      exists self' state,
        @reset nat blip demo_task (Some [t0; t1; t2]) = Ok (self', state) /\
        target_pos self' = [t0; t1; t2] /\
        initvec2tgt self' = [t0 - p0; t1 - p1; t2 - p2] /\
        5 <= suminitdist self').
Proof.
  split; [apply demo_task_reachable|].
  apply (@suminitdist_floor_invariant nat blip (tick_sim_resets _) demo_task).
  apply demo_task_reachable.
Defined.

End Runs.

(** * Further properties of the module *)

(** ** smoothabs and mag *)

Section HelperProperties.

Lemma sum_acc (l : array) : forall a, fold_left Rplus l a = a + sum l.
Proof.
  unfold sum. induction l as [|x l IH]; intros a; simpl.
  - lra.
  - rewrite (IH (a + x)), (IH (0 + x)). lra.
Qed.

Lemma sum_cons x (l : array) : sum (x :: l) = x + sum l.
Proof. unfold sum at 1. simpl. rewrite sum_acc. lra. Qed.

Lemma dot_self_cons x (v : array) : dot (x :: v) (x :: v) = x * x + dot v v.
Proof. unfold dot. simpl. apply sum_cons. Qed.

Lemma dot_self_nonneg (v : array) : 0 <= dot v v.
Proof.
  induction v as [|x v IH].
  - unfold dot, sum. simpl. lra.
  - rewrite dot_self_cons. nra.
Qed.

Lemma dot_self_le_sum_abs (v : array) :
  0 <= sum (map Rabs v) /\ dot v v <= sum (map Rabs v) * sum (map Rabs v).
Proof.
  induction v as [|x v [IH0 IH]].
  - unfold dot, sum. simpl. lra.
  - simpl map. rewrite sum_cons, dot_self_cons.
    pose proof (Rabs_pos x) as Hx.
    assert (Hsq : x * x = Rabs x * Rabs x).
    { unfold Rabs. destruct (Rcase_abs x); ring. }
    split; [lra|]. rewrite Hsq. nra.
Qed.

Lemma smoothabs_of_abs x : smoothabs (Rabs x) = smoothabs x.
Proof.
  unfold smoothabs, square. f_equal.
  unfold Rabs. destruct (Rcase_abs x); ring.
Qed.

Lemma smoothabs_le x y : Rabs x <= Rabs y -> smoothabs x <= smoothabs y.
Proof.
  intros Hxy. rewrite <- (smoothabs_of_abs x), <- (smoothabs_of_abs y).
  unfold smoothabs. apply sqrt_le_1_alt.
  pose proof (Rabs_pos x). unfold square. nra.
Qed.

Lemma smoothabs_floor x :
  smoothabs 0 <= smoothabs x /\ Rabs x <= smoothabs x.
Proof.
  split.
  - apply smoothabs_le. rewrite Rabs_R0. apply Rabs_pos.
  - left. apply smoothabs_above_abs.
Qed.

(** X1: [smoothabs] is even, never below [smoothabs 0 > 0], and lies
    between the absolute value and the absolute value plus [smoothabs 0]. *)
Theorem smoothabs_approximates_abs :
  forall x : R,
    smoothabs (- x) = smoothabs x /\
    0 < smoothabs 0 <= smoothabs x /\
    Rabs x <= smoothabs x <= Rabs x + smoothabs 0.
Proof.
  intros x. split; [apply smoothabs_opp|].
  split.
  - split; [apply smoothabs_pos|].
    apply smoothabs_le. rewrite Rabs_R0. apply Rabs_pos.
  - split; [left; apply smoothabs_above_abs|].
    pose proof (smoothabs_pos 0) as H0. pose proof (Rabs_pos x) as Hx.
    rewrite <- (smoothabs_of_abs x).
    rewrite <- (sqrt_square (Rabs x + smoothabs 0)) by lra.
    unfold smoothabs at 1. apply sqrt_le_1_alt.
    assert (Hs : smoothabs 0 * smoothabs 0 = square 0 + 10e-16).
    { unfold smoothabs. apply sqrt_sqrt.
      left. apply smoothabs_arg_pos. }
    unfold square in *. nra.
Qed.

Lemma mag_le_sum_abs (v : array) : mag v <= sum (map Rabs v).
Proof.
  destruct (dot_self_le_sum_abs v) as [H0 Hle].
  unfold mag. rewrite <- (sqrt_square (sum (map Rabs v))) by exact H0.
  now apply sqrt_le_1_alt.
Qed.

(** X2: [mag] is a norm between the largest component and the plain
    absolute sum: it is never negative, no component exceeds it in
    absolute value, it is at most the sum of the absolute values, and it
    is 0 only for a vector of zeros. *)
Theorem mag_between_max_and_sum :
  forall v : array,
    0 <= mag v /\
    (forall x, In x v -> Rabs x <= mag v) /\
    mag v <= sum (map Rabs v) /\
    (mag v = 0 -> Forall (fun x => x = 0) v).
Proof.
  intros v.
  assert (Hin : forall x, In x v -> x * x <= dot v v).
  { induction v as [|y v IH]; intros x Hx; [destruct Hx|].
    rewrite dot_self_cons. pose proof (dot_self_nonneg v).
    destruct Hx as [-> | Hx]; [nra|].
    specialize (IH x Hx). nra. }
  split; [apply sqrt_pos|]. split; [|split].
  - intros x Hx. unfold mag.
    rewrite <- sqrt_Rsqr_abs. apply sqrt_le_1_alt.
    unfold Rsqr. now apply Hin.
  - apply mag_le_sum_abs.
  - intros Hz. unfold mag in Hz.
    apply sqrt_eq_0 in Hz; [|apply dot_self_nonneg].
    apply Forall_forall. intros x Hx.
    specialize (Hin x Hx). nra.
Qed.

End HelperProperties.

(** ** calc_reward, get_reward and get_max_reward *)

Section RewardProperties.

Context {S : Type}.

Lemma tanh_le x y : x <= y -> tanh x <= tanh y.
Proof.
  intros [Hlt | ->]; [left; now apply tanh_lt | right; reflexivity].
Qed.

Lemma wrap_once_turn a :
  0 <= a <= 2 * PI -> Rabs (wrap_once a) <= PI.
Proof.
  intros Ha. pose proof PI_gt_2. unfold wrap_once.
  destruct (Rgt_dec a PI); apply Rabs_le; lra.
Qed.

(** What a returning call of [calc_reward] returned. *)
Lemma calc_reward_inv (self self' : Task S) time position angles velocities r :
  calc_reward self time position angles velocities = Ok (self', r) ->
  exists rvec2tgt phi theta,
    sub (target_pos self) position = Ok rvec2tgt /\
    getitem angles 0 = Ok phi /\ getitem angles 1 = Ok theta /\
    r = [tanh (2 - (smoothabs (wrap_once theta) + smoothabs (wrap_once phi)))] /\
    distpunishment self' = Some (sum (map smoothabs rvec2tgt) / suminitdist self) /\
    highanglepunishment self' =
      Some (smoothabs (wrap_once theta) + smoothabs (wrap_once phi)).
Proof.
  unfold calc_reward. intros Hc.
  destruct (sub (target_pos self) position) as [rv|]; simpl in Hc; [|discriminate].
  destruct (getitem angles 0) as [phi|]; simpl in Hc; [|discriminate].
  destruct (getitem angles 1) as [theta|]; simpl in Hc; [|discriminate].
  injection Hc as <- <-. exists rv, phi, theta. simpl. repeat split.
Qed.

Lemma reward_le_level a b :
  tanh (2 - (smoothabs a + smoothabs b)) <= tanh (2 - (smoothabs 0 + smoothabs 0)).
Proof.
  apply tanh_le.
  destruct (smoothabs_floor a) as [Ha _].
  destruct (smoothabs_floor b) as [Hb _].
  lra.
Qed.

End RewardProperties.

Section RewardExtras.

Context {S : Type} `{PhysicsSim S}.

Lemma sum_smoothabs_self (l : array) :
  sum (map smoothabs (zip_with Rminus l l)) = INR (length l) * smoothabs 0.
Proof.
  induction l as [|x l IH].
  - unfold sum. simpl. lra.
  - cbn [zip_with map]. rewrite sum_cons, IH.
    replace (x - x) with 0 by lra.
    change (length (x :: l)) with (Datatypes.S (length l)).
    rewrite S_INR. lra.
Qed.

(** X3: the reward is the same when roll and pitch are exchanged, it is
    never above the reward of level flight, and for roll and pitch in
    [0, 2*pi] it is never below [tanh (2 - 2 * smoothabs PI)]. *)
Theorem calc_reward_bounds :
  forall (self : Task S) (time : R) (position velocities rest : array)
         (roll pitch : R),
    length (target_pos self) = 3%nat -> length position = 3%nat ->
    exists s s' r,
      calc_reward self time position (roll :: pitch :: rest) velocities
        = Ok (s, [r]) /\
      calc_reward self time position (pitch :: roll :: rest) velocities
        = Ok (s', [r]) /\
      r <= tanh (2 - (smoothabs 0 + smoothabs 0)) /\
      (0 <= roll <= 2 * PI -> 0 <= pitch <= 2 * PI ->
       tanh (2 - (smoothabs PI + smoothabs PI)) <= r).
Proof.
  intros self time position velocities rest roll pitch Ht Hp.
  destruct (calc_reward_returns self time position velocities roll pitch rest Ht Hp)
    as [d1 E1].
  destruct (calc_reward_returns self time position velocities pitch roll rest Ht Hp)
    as [d2 E2].
  rewrite (Rplus_comm (smoothabs (wrap_once roll))) in E2.
  do 3 eexists. split; [exact E1|]. split; [exact E2|].
  split; [apply reward_le_level|].
  intros Hroll Hpitch. apply tanh_le.
  assert (Rabs PI = PI) as HPI by (apply Rabs_right; pose proof PI_gt_2; lra).
  pose proof (smoothabs_le (wrap_once roll) PI) as L1.
  pose proof (smoothabs_le (wrap_once pitch) PI) as L2.
  rewrite HPI in L1, L2.
  specialize (L1 (wrap_once_turn roll Hroll)).
  specialize (L2 (wrap_once_turn pitch Hpitch)).
  lra.
Qed.

(** X4: [calc_reward] validates nothing itself.  A position that is
    neither of the target's three components nor a single one stops at
    the subtraction with ValueError; with a fitting position, fewer than
    two angles stop at the subscript with IndexError. *)
Theorem calc_reward_raises :
  forall (self : Task S) (time : R) (position angles velocities : array),
    length (target_pos self) = 3%nat ->
    (length position <> 1%nat -> length position <> 3%nat ->
     calc_reward self time position angles velocities = Raise ValueError) /\
    (length position = 3%nat -> (length angles < 2)%nat ->
     calc_reward self time position angles velocities = Raise IndexError).
Proof.
  intros self time position angles velocities Ht. split.
  - intros H1 H3. unfold calc_reward, sub, broadcast2. rewrite Ht.
    destruct (Nat.eqb_spec 3 (length position)) as [E|_]; [congruence|].
    destruct (Nat.eqb_spec (length position) 1) as [E|_]; [congruence|].
    reflexivity.
  - intros Hp Ha.
    destruct (sub_vec3 _ _ Ht Hp) as (x & y & z & Hsub).
    unfold calc_reward. rewrite Hsub. simpl.
    destruct angles as [|phi [|theta rest]]; simpl in *;
      [reflexivity | reflexivity | lia].
Qed.

Lemma get_reward_on_pose (self : Task S) t0 t1 t2 x y z phi theta psi :
  target_pos self = [t0; t1; t2] ->
  sim_pose (sim self) = [x; y; z; phi; theta; psi] ->
  get_reward self =
    Ok (set_highanglepunishment
          (set_distpunishment self
             (sum (map smoothabs [t0 - x; t1 - y; t2 - z]) / suminitdist self))
          (smoothabs (wrap_once theta) + smoothabs (wrap_once phi)),
        [tanh (2 - (smoothabs (wrap_once theta) + smoothabs (wrap_once phi)))]).
Proof.
  intros Ht Hp. unfold get_reward, calc_reward. rewrite Hp, Ht. reflexivity.
Qed.

(** X5: [get_reward] takes roll from [pose[3]] and pitch from [pose[4]];
    the yaw, the time and the velocity do not enter, and the position
    only reaches the stored [distpunishment]. *)
Theorem get_reward_reads_roll_pitch :
  forall (self : Task S) (t0 t1 t2 x y z phi theta psi : R),
    target_pos self = [t0; t1; t2] ->
    sim_pose (sim self) = [x; y; z; phi; theta; psi] ->
    get_reward self =
      Ok (set_highanglepunishment
            (set_distpunishment self
               (sum (map smoothabs [t0 - x; t1 - y; t2 - z]) / suminitdist self))
            (smoothabs (wrap_once theta) + smoothabs (wrap_once phi)),
          [tanh (2 - (smoothabs (wrap_once theta) + smoothabs (wrap_once phi)))]).
Proof.
  intros self t0 t1 t2 x y z phi theta psi Ht Hp.
  exact (get_reward_on_pose self t0 t1 t2 x y z phi theta psi Ht Hp).
Qed.

(** X6: [get_max_reward] returns on every instance: it is
    [action_repeat] times the reward of level flight.  It is not a pure
    query: it overwrites the stored [distpunishment] and
    [highanglepunishment]; the simulator, the target and the
    normalization constants stay as they were. *)
Theorem get_max_reward_returns :
  forall self : Task S,
    exists self',
      get_max_reward self =
        Ok (self',
            [INR (action_repeat self) * tanh (2 - (smoothabs 0 + smoothabs 0))]) /\
      sim self' = sim self /\
      same_goal self self' /\
      highanglepunishment self' = Some (smoothabs 0 + smoothabs 0) /\
      distpunishment self' =
        Some (INR (length (target_pos self)) * smoothabs 0 / suminitdist self).
Proof.
  intros self. pose proof PI_gt_2 as Hpi.
  unfold get_max_reward, calc_reward.
  unfold sub. rewrite broadcast2_same_shape by reflexivity.
  cbn [bind zeros repeat getitem nth_error].
  rewrite (wrap_once_below 0) by lra.
  eexists. split; [reflexivity|].
  cbn [sim distpunishment highanglepunishment set_highanglepunishment
       set_distpunishment].
  rewrite sum_smoothabs_self.
  repeat split.
Qed.

End RewardExtras.

(** ** step *)

Section StepExtras.

Context {S : Type} `{PhysicsSim S}.

Lemma get_reward_range (self self' : Task S) r :
  get_reward self = Ok (self', [r]) ->
  -1 <= r <= tanh (2 - (smoothabs 0 + smoothabs 0)).
Proof.
  unfold get_reward. intros Hg.
  apply calc_reward_inv in Hg.
  destruct Hg as (rv & phi & theta & _ & _ & _ & Hr & _).
  injection Hr as ->. split.
  - left. apply tanh_range.
  - apply reward_le_level.
Qed.

(** X7: the total reward of a [step] is never above what
    [get_max_reward] returns, and never below [-3]. *)
Theorem step_reward_at_most_max `{!PhysicsSimShapes S} :
  forall (self : Task S) (actions : array),
    action_repeat self = 3%nat ->
    length (target_pos self) = 3%nat ->
    length actions = 5%nat ->
    exists self' next_state total done self_max most,
      step self actions = Ok (self', (next_state, Arr [total], done)) /\
      get_max_reward self = Ok (self_max, [most]) /\
      -3 <= total <= most.
Proof.
  intros self actions Hrep Ht Hact.
  destruct (step_three_substeps self actions Hrep Ht Hact)
    as (rs & s1 & s2 & s3 & d1 & d2 & d3 & self1 & self2 & self3 &
        r1 & r2 & r3 & _ & _ & G1 & G2 & G3 & Hstep & _).
  apply get_reward_range in G1, G2, G3.
  unfold get_max_reward.
  destruct (calc_reward_returns self 1e8 (target_pos self) (zeros 3) 0 0 [0]
              Ht Ht) as [d Hc].
  change (0 :: 0 :: [0]) with (zeros 3) in Hc. rewrite Hc.
  cbn [bind map action_repeat set_highanglepunishment set_distpunishment].
  rewrite Hrep.
  pose proof PI_gt_2 as Hpi.
  rewrite (wrap_once_below 0) by lra.
  do 6 eexists. split; [exact Hstep|]. split; [reflexivity|].
  replace (INR 3) with 3 by (simpl; lra).
  lra.
Qed.

(** X8: [step] does not check the length of the action.  No element
    raises IndexError; one, three or four elements raise ValueError; two
    elements drive all four rotors alike; and whatever follows the fifth
    element is ignored. *)
Theorem step_action_shapes :
  forall (self : Task S) (a0 a1 a2 a3 a4 : R) (rest : array),
    step self [] = Raise IndexError /\
    step self [a0] = Raise ValueError /\
    step self [a0; a1; a2] = Raise ValueError /\
    step self [a0; a1; a2; a3] = Raise ValueError /\
    rotor_speeds [a0; a1] =
      Ok [Rmax (a0 + a1) 1; Rmax (a0 + a1) 1; Rmax (a0 + a1) 1; Rmax (a0 + a1) 1] /\
    step self (a0 :: a1 :: a2 :: a3 :: a4 :: rest) = step self [a0; a1; a2; a3; a4].
Proof. intros. repeat split. Qed.

(** X9: whatever the action, the simulator is never handed fewer or more
    than four rotor speeds, and never one below 1. *)
Theorem rotor_speeds_at_least_one :
  forall (actions rs : array),
    rotor_speeds actions = Ok rs ->
    length rs = 4%nat /\ Forall (fun w => 1 <= w) rs.
Proof.
  intros actions rs.
  destruct actions as [|a0 [|a1 [|a2 [|a3 [|a4 rest]]]]];
    try discriminate; intros [= <-]; (split; [reflexivity|]);
    cbn; repeat (apply Forall_cons; [apply Rmax_r|]); apply Forall_nil.
Qed.

Lemma skipn_prefix (n : nat) (a b : array) :
  length a = n -> skipn n (a ++ b) = b.
Proof.
  intros <-. rewrite skipn_app, skipn_all, Nat.sub_diag. reflexivity.
Qed.

(** X10: a [step] advances the simulator by exactly three timesteps, all
    with the same rotor speeds; it leaves the target and the
    normalization constants alone, and the last nine entries of the state
    it returns are the pose and angular velocity the simulator is left
    in. *)
Theorem step_advances_three_timesteps `{!PhysicsSimShapes S} :
  forall (self : Task S) (actions : array),
    action_repeat self = 3%nat ->
    length (target_pos self) = 3%nat ->
    length actions = 5%nat ->
    exists rs self' next_state reward done,
      rotor_speeds actions = Ok rs /\
      step self actions = Ok (self', (next_state, reward, done)) /\
      sim self' =
        fst (next_timestep
               (fst (next_timestep (fst (next_timestep (sim self) rs)) rs)) rs) /\
      same_goal self self' /\
      skipn 18 next_state = sim_pose (sim self') ++ sim_angular_v (sim self').
Proof.
  intros self actions Hrep Ht Hact.
  destruct (step_three_substeps self actions Hrep Ht Hact)
    as (rs & s1 & s2 & s3 & d1 & d2 & d3 & self1 & self2 & self3 &
        r1 & r2 & r3 & Hrs & Htr & G1 & G2 & G3 & Hstep & Hgoal).
  destruct (sim_trace_three _ _ _ _ _ _ _ _ Htr) as (E1 & E2 & E3).
  apply get_reward_keeps in G3. destruct G3 as [Hsim _]. simpl in Hsim.
  exists rs, self3. do 3 eexists.
  split; [exact Hrs|]. split; [exact Hstep|].
  rewrite Hsim. rewrite E1. cbn [fst]. rewrite E2. cbn [fst]. rewrite E3.
  cbn [fst].
  split; [reflexivity|]. split; [exact Hgoal|].
  assert (L1 : length (sim_pose s1) = 6%nat)
    by (replace s1 with (fst (next_timestep (sim self) rs))
          by (now rewrite E1); apply pose_shape).
  assert (L2 : length (sim_angular_v s1) = 3%nat)
    by (replace s1 with (fst (next_timestep (sim self) rs))
          by (now rewrite E1); apply angular_v_shape).
  assert (L3 : length (sim_pose s2) = 6%nat)
    by (replace s2 with (fst (next_timestep s1 rs))
          by (now rewrite E2); apply pose_shape).
  assert (L4 : length (sim_angular_v s2) = 3%nat)
    by (replace s2 with (fst (next_timestep s1 rs))
          by (now rewrite E2); apply angular_v_shape).
  replace (sim_pose s1 ++ sim_angular_v s1 ++ sim_pose s2 ++ sim_angular_v s2 ++
           sim_pose s3 ++ sim_angular_v s3)
    with ((sim_pose s1 ++ sim_angular_v s1 ++ sim_pose s2 ++ sim_angular_v s2) ++
          (sim_pose s3 ++ sim_angular_v s3))
    by (now rewrite <- !app_assoc).
  apply skipn_prefix. rewrite !length_app, L1, L2, L3, L4. reflexivity.
Qed.

End StepExtras.

(** ** __init__ and reset *)

Section InitResetExtras.

Context {S : Type} `{PhysicsSim S}.

(** X11: what the constructor leaves behind when it is given a pose of
    six and a target of three components: the target as given, the
    default velocity target when none is given, no stored punishments
    yet, and normalization constants with
    [5 <= initdist2tgt <= suminitdist]. *)
Theorem Task_init_postconditions :
  forall (p0 p1 p2 p3 p4 p5 t0 t1 t2 runtime : R)
         (init_velocities init_angle_velocities new_vel : option array),
    exists self : Task S,
      Task_init (Some [p0; p1; p2; p3; p4; p5]) init_velocities
                init_angle_velocities runtime (Some [t0; t1; t2]) new_vel
        = Ok self /\
      target_pos self = [t0; t1; t2] /\
      target_vel self =
        match new_vel with Some v => v | None => [0; 0; 0] end /\
      initvec2tgt self = [t0 - p0; t1 - p1; t2 - p2] /\
      distpunishment self = None /\ highanglepunishment self = None /\
      mag (initvec2tgt self) <= initdist2tgt self /\
      5 <= initdist2tgt self <= suminitdist self.
Proof.
  intros. eexists. split; [reflexivity|].
  cbn [target_pos target_vel initvec2tgt distpunishment highanglepunishment
       initdist2tgt suminitdist].
  repeat (split; [reflexivity|]).
  split; [apply Rmax_l|]. split; [apply Rmax_r|].
  apply Rle_max_compat_r, mag_le_sum_abs.
Qed.

(** X12: the constructor's shape errors.  Without [init_pose] it raises
    TypeError whatever else it is given, and a target that has neither
    three components nor one raises ValueError. *)
Theorem Task_init_raises :
  forall (p0 p1 p2 p3 p4 p5 runtime : R) (target : array)
         (init_velocities init_angle_velocities new_pos new_vel : option array),
    length target <> 1%nat -> length target <> 3%nat ->
    Task_init (S := S) None init_velocities init_angle_velocities runtime
              new_pos new_vel = Raise TypeError /\
    Task_init (S := S) (Some [p0; p1; p2; p3; p4; p5]) init_velocities
              init_angle_velocities runtime (Some target) new_vel
      = Raise ValueError.
Proof.
  intros p0 p1 p2 p3 p4 p5 rt target iv iav tp tv H1 H3.
  split; [reflexivity|].
  unfold Task_init. cbn [as_array bind slice Nat.sub skipn firstn].
  unfold sub, broadcast2. cbn [length].
  destruct (Nat.eqb_spec (length target) 3) as [E|_]; [congruence|].
  destruct (Nat.eqb_spec (length target) 1) as [E|_]; [congruence|].
  reflexivity.
Qed.

(** X13: [reset] returns the freshly reset pose and angular velocity
    three times over, whether or not a new target comes with it; without
    a new target only the simulator changes. *)
Theorem reset_returns_fresh_state :
  forall self : Task S,
    action_repeat self = 3%nat ->
    let s0 := sim_reset (sim self) in
    let state := sim_pose s0 ++ sim_angular_v s0 ++ sim_pose s0 ++
                 sim_angular_v s0 ++ sim_pose s0 ++ sim_angular_v s0 in
    reset self None = Ok (set_sim self s0, state) /\
    (forall t self' state',
        reset self (Some t) = Ok (self', state') ->
        state' = state /\ sim self' = s0) /\
    (length (sim_pose s0) = 6%nat -> length (sim_angular_v s0) = 3%nat ->
     length state = 27%nat).
Proof.
  intros self Hrep s0 state.
  assert (Hcat : concatenate
                   (list_repeat [sim_pose s0; sim_angular_v s0] (action_repeat self))
                 = Ok state).
  { rewrite Hrep. subst state. cbn. now rewrite !app_nil_r. }
  split; [|split].
  - unfold reset. cbn [sim action_repeat set_sim]. fold s0.
    rewrite Hcat. reflexivity.
  - intros t self' state'. unfold reset.
    cbn [sim action_repeat set_sim]. fold s0. rewrite Hcat. cbn [bind].
    destruct (sub t (slice (sim_pose s0) 0 3)); cbn [bind]; [|discriminate].
    intros [= <- <-]. split; reflexivity.
  - intros Hp Ha. subst state. rewrite !length_app, Hp, Ha. reflexivity.
Qed.

(** X14: [reset] does not check the shape of a new target.  One that has
    neither three components nor one raises ValueError; a one-component
    target is accepted and subtracted from every coordinate. *)
Theorem reset_target_shapes `{!PhysicsSimResets S} :
  forall (self : Task S) (p0 p1 p2 p3 p4 p5 x : R) (t : array),
    action_repeat self = 3%nat ->
    sim_init_pose (sim self) = [p0; p1; p2; p3; p4; p5] ->
    length t <> 1%nat -> length t <> 3%nat ->
    reset self (Some t) = Raise ValueError /\
    exists self' state,
      reset self (Some [x]) = Ok (self', state) /\
      target_pos self' = [x] /\
      initvec2tgt self' = [x - p0; x - p1; x - p2].
Proof.
  intros self p0 p1 p2 p3 p4 p5 x t Hrep Hpose H1 H3. split.
  - unfold reset. cbn [sim action_repeat set_sim].
    rewrite Hrep, reset_pose, Hpose.
    cbn [list_repeat app concatenate bind slice Nat.sub skipn firstn].
    unfold sub, broadcast2. cbn [length].
    destruct (Nat.eqb_spec (length t) 3) as [E|_]; [congruence|].
    destruct (Nat.eqb_spec (length t) 1) as [E|_]; [congruence|].
    reflexivity.
  - unfold reset. cbn [sim action_repeat set_sim].
    rewrite Hrep, reset_pose, Hpose.
    do 2 eexists. split; [reflexivity|]. split; reflexivity.
Qed.

(** X15: right after a [reset] to a new target the stored
    [distpunishment] of the first reward is positive and at most 1, and
    it is exactly 1 once the smooth absolute distance to the target
    reaches the floor of 5. *)
Theorem reset_then_reward_distpunishment `{!PhysicsSimResets S} :
  forall (self : Task S) (p0 p1 p2 p3 p4 p5 t0 t1 t2 : R),
    action_repeat self = 3%nat ->
    sim_init_pose (sim self) = [p0; p1; p2; p3; p4; p5] ->
    exists self1 state self2 r d,
      reset self (Some [t0; t1; t2]) = Ok (self1, state) /\
      get_reward self1 = Ok (self2, r) /\
      distpunishment self2 = Some d /\
      0 < d <= 1 /\
      (5 <= sum (map smoothabs [t0 - p0; t1 - p1; t2 - p2]) -> d = 1).
Proof.
  intros self p0 p1 p2 p3 p4 p5 t0 t1 t2 Hrep Hpose.
  destruct (reset_new_target self t0 t1 t2 p0 p1 p2 p3 p4 p5 Hrep Hpose)
    as [state Hr].
  set (v := [t0 - p0; t1 - p1; t2 - p2]) in *.
  set (self1 := set_target _ _ _ _ _) in Hr.
  assert (Hg := get_reward_on_pose self1 t0 t1 t2 p0 p1 p2 p3 p4 p5 eq_refl).
  specialize (Hg ltac:(subst self1; cbn [sim set_target set_sim];
                       now rewrite reset_pose)).
  fold v in Hg.
  do 5 eexists. split; [exact Hr|]. split; [exact Hg|].
  cbn [distpunishment set_highanglepunishment set_distpunishment].
  split; [reflexivity|].
  subst self1. cbn [suminitdist set_target].
  set (X := sum (map smoothabs v)).
  assert (HX : 0 < X).
  { subst X v. cbn [map]. rewrite !sum_cons.
    pose proof (smoothabs_pos (t0 - p0)). pose proof (smoothabs_pos (t1 - p1)).
    pose proof (smoothabs_pos (t2 - p2)). unfold sum. simpl. lra. }
  assert (HM : 0 < Rmax X 5) by (pose proof (Rmax_l X 5); lra).
  split; [split|].
  - apply Rdiv_lt_0_compat; assumption.
  - apply Rmult_le_reg_r with (Rmax X 5); [exact HM|].
    unfold Rdiv. rewrite Rmult_assoc, Rinv_l by lra.
    pose proof (Rmax_l X 5). lra.
  - intros H5. rewrite Rmax_left by exact H5. field. lra.
Qed.

End InitResetExtras.

(** ** What the methods leave unchanged *)

Section FrameExtras.

Context {S : Type} `{PhysicsSim S}.

Lemma same_config_refl (self : Task S) : same_config self self.
Proof. repeat split. Qed.

Lemma same_config_trans (a b c : Task S) :
  same_config a b -> same_config b c -> same_config a c.
Proof.
  unfold same_config. intros (?&?&?&?&?&?) (?&?&?&?&?&?).
  repeat split; congruence.
Qed.

Lemma calc_reward_config (self self' : Task S) time position angles velocities r :
  calc_reward self time position angles velocities = Ok (self', r) ->
  same_config self self'.
Proof.
  unfold calc_reward. intros Hc.
  destruct (sub (target_pos self) position); simpl in Hc; [|discriminate].
  destruct (getitem angles 0); simpl in Hc; [|discriminate].
  destruct (getitem angles 1); simpl in Hc; [|discriminate].
  injection Hc as <- _. repeat split.
Qed.

Lemma get_reward_config (self self' : Task S) r :
  get_reward self = Ok (self', r) -> same_config self self'.
Proof. unfold get_reward. apply calc_reward_config. Qed.

Lemma get_max_reward_config (self self' : Task S) r :
  get_max_reward self = Ok (self', r) -> same_config self self'.
Proof.
  unfold get_max_reward.
  destruct (calc_reward self 1e8 (target_pos self) (zeros 3) (zeros 3))
    as [[s1 r1]|] eqn:Hc; simpl; [|discriminate].
  intros [= <- _]. now apply calc_reward_config in Hc.
Qed.

Lemma step_loop_config n rs : forall (l l' : step_locals),
  step_loop n rs l = Ok l' -> same_config (l_self l) (l_self l').
Proof.
  induction n as [|n IH]; intros l l'; simpl.
  - intros [= <-]. apply same_config_refl.
  - destruct (step_body rs l) as [l1|] eqn:Hb; simpl; [|discriminate].
    intros Hl. apply IH in Hl.
    eapply same_config_trans; [|exact Hl].
    unfold step_body in Hb.
    destruct (next_timestep (sim (l_self l)) rs) as [s' done].
    destruct (get_reward (set_sim (l_self l) s')) as [[self1 r]|] eqn:Hr;
      simpl in Hb; [|discriminate].
    destruct (iadd (l_reward l) r); simpl in Hb; [|discriminate].
    injection Hb as <-. simpl.
    apply get_reward_config in Hr.
    eapply same_config_trans; [|exact Hr]. repeat split.
Qed.

Lemma step_config (self self' : Task S) actions out :
  step self actions = Ok (self', out) -> same_config self self'.
Proof.
  unfold step.
  destruct (rotor_speeds actions) as [rs|]; simpl; [|discriminate].
  destruct (step_loop (action_repeat self) rs _) as [l|] eqn:Hl; simpl;
    [|discriminate].
  destruct (concatenate (l_pose_all l)); simpl; [|discriminate].
  destruct (l_done l); [|discriminate].
  intros [= <- _]. now apply step_loop_config in Hl.
Qed.

Lemma reset_config (self self' : Task S) new_tgt_pos state :
  reset self new_tgt_pos = Ok (self', state) -> same_config self self'.
Proof.
  unfold reset. intros Hr.
  destruct (concatenate _); simpl in Hr; [|discriminate].
  destruct new_tgt_pos as [t|].
  - destruct (sub t _); simpl in Hr; [|discriminate].
    injection Hr as <- _. repeat split.
  - injection Hr as <- _. repeat split.
Qed.

Lemma reset_keeps_without_target (self self' : Task S) state :
  reset self None = Ok (self', state) -> same_goal self self'.
Proof.
  unfold reset.
  destruct (concatenate _); simpl; [|discriminate].
  intros [= <- _]. repeat split.
Qed.

(** X16: the configuration the constructor sets is an invariant of every
    instance a sequence of calls can produce from it: three sub-steps per
    step, five action components, the action bounds [400, -1, -1, -1, -1]
    and [565, 1, 1, 1, 1], and a [state_size] of three times the sizes of
    pose and angular velocity of the simulator the constructor built from
    its own arguments, which is the simulator of the fresh instance. *)
Theorem built_from_config :
  forall (ip iv iav : option array) (rt : R) (self : Task S),
    built_from ip iv iav rt self ->
    action_repeat self = 3%nat /\
    action_size self = 5%nat /\
    action_low self = [400; -1; -1; -1; -1] /\
    action_high self = [565; 1; 1; 1; 1] /\
    state_size self =
      (3 * (length (sim_pose (sim_new ip iv iav rt)) +
            length (sim_angular_v (sim_new ip iv iav rt))))%nat /\
    (forall tp tv self0,
        Task_init ip iv iav rt tp tv = Ok self0 ->
        sim self0 = sim_new ip iv iav rt /\
        state_size self0 =
          (3 * (length (sim_pose (sim self0)) +
                length (sim_angular_v (sim self0))))%nat).
Proof.
  intros ip iv iav rt self Hbuilt.
  assert (Hinit_shape : forall tp tv self0,
            Task_init ip iv iav rt tp tv = Ok self0 ->
            same_config self0 self0 /\
            sim self0 = sim_new ip iv iav rt /\
            action_repeat self0 = 3%nat /\ action_size self0 = 5%nat /\
            action_low self0 = [400; -1; -1; -1; -1] /\
            action_high self0 = [565; 1; 1; 1; 1] /\
            state_size self0 =
              (3 * (length (sim_pose (sim_new ip iv iav rt)) +
                    length (sim_angular_v (sim_new ip iv iav rt))))%nat).
  { intros tp tv self0 Hinit. unfold Task_init in Hinit.
    destruct ip as [pose0|]; [|discriminate].
    destruct tp as [tgt|]; [|discriminate].
    cbn [as_array bind] in Hinit.
    destruct (sub tgt (slice pose0 0 3)); cbn [bind] in Hinit; [|discriminate].
    injection Hinit as <-.
    split; [apply same_config_refl|].
    cbn [sim action_repeat action_size action_low action_high state_size].
    repeat split. }
  assert (Hmove : forall a b : Task S,
            same_config a b ->
            (action_repeat a = 3%nat /\ action_size a = 5%nat /\
             action_low a = [400; -1; -1; -1; -1] /\
             action_high a = [565; 1; 1; 1; 1] /\
             state_size a =
               (3 * (length (sim_pose (sim_new ip iv iav rt)) +
                     length (sim_angular_v (sim_new ip iv iav rt))))%nat) ->
            (action_repeat b = 3%nat /\ action_size b = 5%nat /\
             action_low b = [400; -1; -1; -1; -1] /\
             action_high b = [565; 1; 1; 1; 1] /\
             state_size b =
               (3 * (length (sim_pose (sim_new ip iv iav rt)) +
                     length (sim_angular_v (sim_new ip iv iav rt))))%nat)).
  { intros a b (E1 & E2 & E3 & E4 & E5 & _). now rewrite E1, E2, E3, E4, E5. }
  assert (Hinv : action_repeat self = 3%nat /\ action_size self = 5%nat /\
                 action_low self = [400; -1; -1; -1; -1] /\
                 action_high self = [565; 1; 1; 1; 1] /\
                 state_size self =
                   (3 * (length (sim_pose (sim_new ip iv iav rt)) +
                         length (sim_angular_v (sim_new ip iv iav rt))))%nat).
  { induction Hbuilt as [tp tv self Hinit
                        | self new self' state _ IH Hreset
                        | self actions self' out _ IH Hstep
                        | self time position angles velocities self' r _ IH Hc
                        | self self' r _ IH Hg
                        | self self' r _ IH Hm].
    - apply (Hinit_shape tp tv self Hinit).
    - eapply Hmove; [eapply reset_config; eassumption | exact IH].
    - eapply Hmove; [eapply step_config; eassumption | exact IH].
    - eapply Hmove; [eapply calc_reward_config; eassumption | exact IH].
    - eapply Hmove; [eapply get_reward_config; eassumption | exact IH].
    - eapply Hmove; [eapply get_max_reward_config; eassumption | exact IH]. }
  destruct Hinv as (I1 & I2 & I3 & I4 & I5).
  repeat (split; [assumption|]).
  intros tp tv self0 Hinit.
  destruct (Hinit_shape tp tv self0 Hinit) as (_ & Hsim & _ & _ & _ & _ & Hsize).
  split; [exact Hsim|]. now rewrite Hsim.
Qed.

(** X17: the target and the normalization constants change in one place
    only, [reset] with a new target: [reset] without one, [step],
    [calc_reward], [get_reward] and [get_max_reward] all leave them as
    they are. *)
Theorem goal_changes_only_on_new_target :
  forall self self' : Task S,
    (exists state, reset self None = Ok (self', state)) \/
    (exists actions out, step self actions = Ok (self', out)) \/
    (exists time position angles velocities r,
        calc_reward self time position angles velocities = Ok (self', r)) \/
    (exists r, get_reward self = Ok (self', r)) \/
    (exists r, get_max_reward self = Ok (self', r)) ->
    same_goal self self'.
Proof.
  intros self self' [[state Hr] | [(actions & out & Hs) | [Hc | [[r Hg] | [r Hm]]]]].
  - eapply reset_keeps_without_target; eassumption.
  - eapply step_keeps; eassumption.
  - destruct Hc as (time & position & angles & velocities & r & Hc).
    apply calc_reward_keeps in Hc. unfold same_goal. intuition.
  - apply get_reward_keeps in Hg. apply Hg.
  - eapply get_max_reward_keeps; eassumption.
Qed.

End FrameExtras.

(** ** The further properties on concrete runs *)

Section ExtraRuns.

Import TickSim.

Lemma calc_reward_bounds_witness :
  length (target_pos demo_task) = 3%nat /\ length [0; 0; 5] = 3%nat /\
  exists s s' r,
    calc_reward demo_task 0 [0; 0; 5] (0.5 :: 6 :: [0]) [0; 0; 0] = Ok (s, [r]) /\
    calc_reward demo_task 0 [0; 0; 5] (6 :: 0.5 :: [0]) [0; 0; 0] = Ok (s', [r]) /\
    r <= tanh (2 - (smoothabs 0 + smoothabs 0)) /\
    (0 <= 0.5 <= 2 * PI -> 0 <= 6 <= 2 * PI ->
     tanh (2 - (smoothabs PI + smoothabs PI)) <= r).
Proof.
  repeat (split; [reflexivity|]).
  apply (@calc_reward_bounds nat demo_task 0 [0; 0; 5] [0; 0; 0] [0] 0.5 6);
    reflexivity.
Defined.

Lemma calc_reward_raises_witness :
  length (target_pos demo_task) = 3%nat /\
  (length [0; 0] <> 1%nat -> length [0; 0] <> 3%nat ->
   calc_reward demo_task 0 [0; 0] [0; 0; 0] [0; 0; 0] = Raise ValueError) /\
  (length [0; 0] = 3%nat -> (length [0; 0; 0] < 2)%nat ->
   calc_reward demo_task 0 [0; 0] [0; 0; 0] [0; 0; 0] = Raise IndexError).
Proof.
  split; [reflexivity|].
  apply (@calc_reward_raises nat demo_task 0 [0; 0] [0; 0; 0] [0; 0; 0]).
  reflexivity.
Defined.

Lemma get_reward_reads_roll_pitch_witness :
  target_pos demo_task = [0; 0; 10] /\
  @sim_pose nat blip (sim demo_task) = [0; 0; 0; 0; 0; 0] /\
  @get_reward nat blip demo_task =
    Ok (set_highanglepunishment
          (set_distpunishment demo_task
             (sum (map smoothabs [0 - 0; 0 - 0; 10 - 0]) / suminitdist demo_task))
          (smoothabs (wrap_once 0) + smoothabs (wrap_once 0)),
        [tanh (2 - (smoothabs (wrap_once 0) + smoothabs (wrap_once 0)))]).
Proof.
  repeat (split; [reflexivity|]).
  apply (@get_reward_reads_roll_pitch nat blip demo_task 0 0 10 0 0 0 0 0 0);
    reflexivity.
Defined.

Lemma step_reward_at_most_max_witness :
  action_repeat demo_task = 3%nat /\
  length (target_pos demo_task) = 3%nat /\
  length [400; 0; 0; 0; 0] = 5%nat /\
  exists self' next_state total done self_max most,
    @step nat blip demo_task [400; 0; 0; 0; 0]
      = Ok (self', (next_state, Arr [total], done)) /\
    get_max_reward demo_task = Ok (self_max, [most]) /\
    -3 <= total <= most.
Proof.
  repeat (split; [reflexivity|]).
  apply (@step_reward_at_most_max nat blip (tick_sim_shapes _) demo_task
           [400; 0; 0; 0; 0]); reflexivity.
Defined.

Lemma rotor_speeds_at_least_one_witness :
  rotor_speeds [0; -5; -5; -5; -5] =
    Ok [Rmax (0 + -5) 1; Rmax (0 + -5) 1; Rmax (0 + -5) 1; Rmax (0 + -5) 1] /\
  length [Rmax (0 + -5) 1; Rmax (0 + -5) 1; Rmax (0 + -5) 1; Rmax (0 + -5) 1]
    = 4%nat /\
  Forall (fun w => 1 <= w)
         [Rmax (0 + -5) 1; Rmax (0 + -5) 1; Rmax (0 + -5) 1; Rmax (0 + -5) 1].
Proof.
  split; [reflexivity|].
  apply (rotor_speeds_at_least_one [0; -5; -5; -5; -5]). reflexivity.
Defined.

Lemma step_advances_three_timesteps_witness :
  action_repeat demo_task = 3%nat /\
  length (target_pos demo_task) = 3%nat /\
  length [400; 0; 0; 0; 0] = 5%nat /\
  exists rs self' next_state reward done,
    rotor_speeds [400; 0; 0; 0; 0] = Ok rs /\
    @step nat blip demo_task [400; 0; 0; 0; 0]
      = Ok (self', (next_state, reward, done)) /\
    sim self' =
      fst (@next_timestep nat blip
             (fst (@next_timestep nat blip
                     (fst (@next_timestep nat blip (sim demo_task) rs)) rs)) rs) /\
    same_goal demo_task self' /\
    skipn 18 next_state =
      @sim_pose nat blip (sim self') ++ @sim_angular_v nat blip (sim self').
Proof.
  repeat (split; [reflexivity|]).
  apply (@step_advances_three_timesteps nat blip (tick_sim_shapes _) demo_task
           [400; 0; 0; 0; 0]); reflexivity.
Defined.

Lemma Task_init_raises_witness :
  length [0; 0] <> 1%nat /\ length [0; 0] <> 3%nat /\
  @Task_init nat blip None None None 5 (Some [0; 0; 10]) None = Raise TypeError /\
  @Task_init nat blip (Some [0; 0; 0; 0; 0; 0]) None None 5 (Some [0; 0]) None
    = Raise ValueError.
Proof.
  split; [discriminate|]. split; [discriminate|].
  apply (@Task_init_raises nat blip 0 0 0 0 0 0 5 [0; 0] None None
           (Some [0; 0; 10]) None); discriminate.
Defined.

Lemma reset_returns_fresh_state_witness :
  action_repeat demo_task = 3%nat /\
  let s0 := @sim_reset nat blip (sim demo_task) in
  let state := @sim_pose nat blip s0 ++ @sim_angular_v nat blip s0 ++
               @sim_pose nat blip s0 ++ @sim_angular_v nat blip s0 ++
               @sim_pose nat blip s0 ++ @sim_angular_v nat blip s0 in
  @reset nat blip demo_task None = Ok (set_sim demo_task s0, state) /\
  (forall t self' state',
      @reset nat blip demo_task (Some t) = Ok (self', state') ->
      state' = state /\ sim self' = s0) /\
  (length (@sim_pose nat blip s0) = 6%nat ->
   length (@sim_angular_v nat blip s0) = 3%nat ->
   length state = 27%nat).
Proof.
  split; [reflexivity|].
  apply (@reset_returns_fresh_state nat blip demo_task). reflexivity.
Defined.

Lemma reset_target_shapes_witness :
  action_repeat demo_task = 3%nat /\
  @sim_init_pose nat blip (sim demo_task) = [0; 0; 0; 0; 0; 0] /\
  length [0; 0] <> 1%nat /\ length [0; 0] <> 3%nat /\
  @reset nat blip demo_task (Some [0; 0]) = Raise ValueError /\
  exists self' state,
    @reset nat blip demo_task (Some [7]) = Ok (self', state) /\
    target_pos self' = [7] /\
    initvec2tgt self' = [7 - 0; 7 - 0; 7 - 0].
Proof.
  split; [reflexivity|]. split; [reflexivity|].
  split; [discriminate|]. split; [discriminate|].
  apply (@reset_target_shapes nat blip (tick_sim_resets _) demo_task
           0 0 0 0 0 0 7 [0; 0]); try reflexivity; discriminate.
Defined.

Lemma reset_then_reward_distpunishment_witness :
  action_repeat demo_task = 3%nat /\
  @sim_init_pose nat blip (sim demo_task) = [0; 0; 0; 0; 0; 0] /\
  exists self1 state self2 r d,
    @reset nat blip demo_task (Some [0; 0; 1]) = Ok (self1, state) /\
    @get_reward nat blip self1 = Ok (self2, r) /\
    distpunishment self2 = Some d /\
    0 < d <= 1 /\
    (5 <= sum (map smoothabs [0 - 0; 0 - 0; 1 - 0]) -> d = 1).
Proof.
  split; [reflexivity|]. split; [reflexivity|].
  apply (@reset_then_reward_distpunishment nat blip (tick_sim_resets _) demo_task
           0 0 0 0 0 0 0 0 1); reflexivity.
Defined.

Lemma built_from_config_witness :
  @built_from nat blip (Some [0; 0; 0; 0; 0; 0]) None None 5 demo_task /\
  action_repeat demo_task = 3%nat /\
  action_size demo_task = 5%nat /\
  action_low demo_task = [400; -1; -1; -1; -1] /\
  action_high demo_task = [565; 1; 1; 1; 1] /\
  state_size demo_task =
    (3 * (length (@sim_pose nat blip
                    (@sim_new nat blip (Some [0; 0; 0; 0; 0; 0]%R) None None 5%R)) +
          length (@sim_angular_v nat blip
                    (@sim_new nat blip (Some [0; 0; 0; 0; 0; 0]%R) None None 5%R))))%nat /\
  (forall tp tv self0,
      @Task_init nat blip (Some [0; 0; 0; 0; 0; 0]) None None 5 tp tv = Ok self0 ->
      sim self0 = @sim_new nat blip (Some [0; 0; 0; 0; 0; 0]) None None 5 /\
      state_size self0 =
        (3 * (length (@sim_pose nat blip (sim self0)) +
              length (@sim_angular_v nat blip (sim self0))))%nat).
Proof.
  split; [eapply built_init; apply demo_task_built|].
  apply (@built_from_config nat blip (Some [0; 0; 0; 0; 0; 0]) None None 5
           demo_task).
  eapply built_init. apply demo_task_built.
Defined.

Lemma goal_changes_only_on_new_target_witness :
  @reset nat blip demo_task None =
    Ok (set_sim demo_task (@sim_reset nat blip (sim demo_task)),
        [0; 0; 0; 0; 0; 0; 0; 0; 0; 0; 0; 0; 0; 0; 0; 0; 0; 0;
         0; 0; 0; 0; 0; 0; 0; 0; 0]) /\
  same_goal demo_task (set_sim demo_task (@sim_reset nat blip (sim demo_task))).
Proof.
  split; [reflexivity|].
  apply (@goal_changes_only_on_new_target nat blip demo_task).
  left. eexists. reflexivity.
Defined.

End ExtraRuns.

(** ** The reward as a float64 *)

Section Float64Facts.

Import F64.

Lemma pow2_nonneg (k : Z) : (0 <= k)%Z -> powerRZ 2 k = IZR (2 ^ k).
Proof.
  intros Hk. rewrite <- (Z2Nat.id k) by exact Hk.
  rewrite <- pow_powerRZ. apply (pow_IZR 2).
Qed.

Lemma pow2_ge_1 (k : Z) : (0 <= k)%Z -> 1 <= powerRZ 2 k.
Proof.
  intros Hk. rewrite pow2_nonneg by exact Hk.
  apply IZR_le. pose proof (Z.pow_pos_nonneg 2 k). lia.
Qed.

Lemma pow2_split (a b : Z) : powerRZ 2 (a + b) = powerRZ 2 a * powerRZ 2 b.
Proof. apply powerRZ_add. lra. Qed.

Lemma is_f64_minus_one : is_f64 (-1).
Proof. exists (-1)%Z, 0%Z. repeat split; try lia. simpl. lra. Qed.

Lemma is_f64_31_32 : is_f64 (31 / 32).
Proof. exists 31%Z, (-5)%Z. repeat split; try lia. simpl. lra. Qed.

(** No float64 lies strictly between -1 and -1 + 2^-53. *)
Lemma f64_gap_above_minus_one z :
  is_f64 z -> -1 < z -> -1 + / IZR (2 ^ 53) <= z.
Proof.
  intros (m & e & Hm & _ & ->) Hz.
  assert (H53 : 0 < IZR (2 ^ 53)) by (apply IZR_lt; reflexivity).
  destruct (Z_le_gt_dec (-53) e) as [He | He].
  - assert (Hk : (0 <= e + 53)%Z) by lia.
    assert (Hz53 : IZR m * powerRZ 2 e * IZR (2 ^ 53) = IZR (m * 2 ^ (e + 53))).
    { rewrite mult_IZR, <- (pow2_nonneg (e + 53)) by exact Hk.
      rewrite <- (pow2_nonneg 53) by lia. rewrite pow2_split. ring. }
    assert (Hint : (- 2 ^ 53 < m * 2 ^ (e + 53))%Z).
    { apply lt_IZR. rewrite <- Hz53, opp_IZR. nra. }
    assert (Hint' : (- 2 ^ 53 + 1 <= m * 2 ^ (e + 53))%Z) by lia.
    apply IZR_le in Hint'. rewrite <- Hz53, plus_IZR, opp_IZR in Hint'.
    apply Rmult_le_reg_r with (IZR (2 ^ 53)); [exact H53|].
    rewrite Rmult_plus_distr_r, Rinv_l by lra. lra.
  - assert (Hk : (0 <= -54 - e)%Z) by lia.
    pose proof (pow2_ge_1 _ Hk) as H1.
    assert (Hsplit : powerRZ 2 (-54) = powerRZ 2 e * powerRZ 2 (-54 - e)).
    { rewrite <- pow2_split. f_equal. lia. }
    assert (Hpos : 0 < powerRZ 2 e) by (apply powerRZ_lt; lra).
    assert (Hsmall : powerRZ 2 e <= powerRZ 2 (-54)) by (rewrite Hsplit; nra).
    assert (H54 : powerRZ 2 (-54) * IZR (2 ^ 53) = / 2).
    { change (powerRZ 2 (-54)) with (/ 2 ^ 54).
      change (2 ^ 53)%Z with 9007199254740992%Z. lra. }
    assert (Hmabs : - IZR (2 ^ 53) < IZR m).
    { rewrite <- opp_IZR. apply IZR_lt. lia. }
    assert (Hlow : - / 2 < IZR m * powerRZ 2 e).
    { destruct (Rle_or_lt 0 (IZR m)) as [Hm0 | Hm0]; [nra|].
      assert (IZR m * powerRZ 2 e >= IZR m * powerRZ 2 (-54)) by nra.
      nra. }
    assert (/ IZR (2 ^ 53) <= / 2).
    { apply Rinv_le_contravar; [lra|].
      change (2 ^ 53)%Z with 9007199254740992%Z. lra. }
    lra.
Qed.

(** A nearest float64 of a real between two float64 stays between them. *)
Lemma nearest_between a b x y :
  is_f64 a -> is_f64 b -> a <= x <= b -> nearest x y -> a <= y <= b.
Proof.
  intros Ha Hb Hx [_ Hnear]. split.
  - destruct (Rle_or_lt a y) as [|Hlt]; [assumption|].
    specialize (Hnear a Ha).
    rewrite (Rabs_left (y - x)), (Rabs_left1 (a - x)) in Hnear by lra. lra.
  - destruct (Rle_or_lt y b) as [|Hlt]; [assumption|].
    specialize (Hnear b Hb).
    rewrite (Rabs_right (y - x)), (Rabs_right (b - x)) in Hnear by lra. lra.
Qed.

(** Just above -1 the nearest float64 is -1 itself. *)
Lemma nearest_minus_one x :
  -1 < x < -1 + / IZR (2 ^ 54) -> nearest x (-1).
Proof.
  intros Hx. split; [apply is_f64_minus_one|].
  intros z Hz.
  assert (Hhalf : / IZR (2 ^ 54) + / IZR (2 ^ 54) = / IZR (2 ^ 53)).
  { change (2 ^ 54)%Z with 18014398509481984%Z.
    change (2 ^ 53)%Z with 9007199254740992%Z. lra. }
  rewrite (Rabs_left (-1 - x)) by lra.
  destruct (Rle_or_lt z (-1)) as [Hle | Hgt].
  - rewrite (Rabs_left (z - x)) by lra. lra.
  - pose proof (f64_gap_above_minus_one z Hz Hgt).
    rewrite (Rabs_right (z - x)) by lra. lra.
Qed.

Lemma exp_40_lower : IZR (2 ^ 55) < exp 40.
Proof.
  pose proof ExpBoundsFacts.exp4_lower as H4.
  assert (H8 : 2916 < exp 8).
  { replace 8 with (4 + 4) by lra. rewrite exp_plus. nra. }
  assert (H16 : 8503056 < exp 16).
  { replace 16 with (8 + 8) by lra. rewrite exp_plus. nra. }
  assert (H32 : 72301961339136 < exp 32).
  { replace 32 with (16 + 16) by lra. rewrite exp_plus. nra. }
  replace 40 with (32 + 8) by lra. rewrite exp_plus.
  change (2 ^ 55)%Z with 36028797018963968%Z. nra.
Qed.

(** Far enough to the left the exact [tanh] is within 2^-54 of -1. *)
Lemma tanh_near_minus_one x :
  x <= -20 -> -1 < tanh x < -1 + / IZR (2 ^ 54).
Proof.
  intros Hx. split; [apply tanh_range|].
  rewrite tanh_exp.
  pose proof (exp_pos (2 * x)) as Hpos.
  assert (HE : exp (2 * x) <= exp (- (40))).
  { destruct (Req_dec x (-20)) as [-> | Hne].
    - right. f_equal. lra.
    - left. apply exp_increasing. lra. }
  rewrite exp_Ropp in HE.
  pose proof exp_40_lower as H40.
  assert (H55 : 0 < IZR (2 ^ 55)) by (apply IZR_lt; reflexivity).
  assert (Hinv : / exp 40 < / IZR (2 ^ 55))
    by (apply Rinv_lt_contravar; [apply Rmult_lt_0_compat; lra | exact H40]).
  assert (Hdbl : / IZR (2 ^ 55) + / IZR (2 ^ 55) = / IZR (2 ^ 54)).
  { change (2 ^ 55)%Z with 36028797018963968%Z.
    change (2 ^ 54)%Z with 18014398509481984%Z. lra. }
  set (E := exp (2 * x)) in *.
  apply Rmult_lt_reg_r with (E + 1); [lra|].
  unfold Rdiv. rewrite Rmult_assoc, Rinv_l by lra.
  assert (0 < / IZR (2 ^ 54)) by (rewrite <- Hdbl; lra).
  nra.
Qed.

Lemma tanh_2_upper : tanh 2 < 31 / 32.
Proof.
  rewrite tanh_exp. replace (2 * 2) with 4 by lra.
  pose proof ExpBoundsFacts.exp4_upper. pose proof (exp_pos 4).
  apply Rmult_lt_reg_r with (exp 4 + 1); [lra|].
  unfold Rdiv. rewrite Rmult_assoc, Rinv_l by lra. lra.
Qed.

(** Every exact reward, and every float64 nearest to it. *)
Lemma reward_value_range a b :
  let r := tanh (2 - (smoothabs a + smoothabs b)) in
  -1 < r < 1 /\ forall y, returned_f64 r y -> -1 <= y < 1.
Proof.
  intros r. pose proof (tanh_range (2 - (smoothabs a + smoothabs b))) as Hr.
  fold r in Hr. split; [exact Hr|].
  intros y Hy.
  assert (Hup : r <= 31 / 32).
  { pose proof (smoothabs_pos a). pose proof (smoothabs_pos b).
    pose proof tanh_2_upper.
    assert (r <= tanh 2) by (apply tanh_le; lra). lra. }
  destruct (nearest_between (-1) (31 / 32) r y is_f64_minus_one is_f64_31_32
              ltac:(lra) Hy). lra.
Qed.

End Float64Facts.

Section RewardRangeClaim.

Context {S : Type} `{PhysicsSim S}.

(** C4, as the code has it: the value [calc_reward] returns (and hence
    [get_reward]) is strictly less than 1 and at least -1.  The exact
    value [tanh (2 - highanglepunishment)] is strictly above -1, but the
    float64 that [np.tanh] hands back for it only satisfies [-1 <= y]:
    it is exactly -1.0 once the punishment is large. *)
Theorem calc_reward_value_range :
  forall (self : Task S) (time : R) (position velocities rest : array)
         (roll pitch : R),
    length (target_pos self) = 3%nat -> length position = 3%nat ->
    (exists s r,
        calc_reward self time position (roll :: pitch :: rest) velocities
          = Ok (s, [r]) /\
        -1 < r < 1 /\
        (forall y, returned_f64 r y -> -1 <= y < 1)) /\
    (forall (current current' : Task S) r,
        get_reward current = Ok (current', [r]) ->
        -1 < r < 1 /\ (forall y, returned_f64 r y -> -1 <= y < 1)).
Proof.
  intros self time position velocities rest roll pitch Ht Hp. split.
  - destruct (calc_reward_returns self time position velocities roll pitch rest
                Ht Hp) as [d E].
    do 2 eexists. split; [exact E|].
    apply reward_value_range.
  - intros current current' r Hg. unfold get_reward in Hg.
    apply calc_reward_inv in Hg.
    destruct Hg as (rv & phi & theta & _ & _ & _ & Hr & _).
    injection Hr as ->. apply reward_value_range.
Qed.

End RewardRangeClaim.

Section RewardRangeRuns.

Import TickSim.

Lemma calc_reward_value_range_witness :
  length (target_pos demo_task) = 3%nat /\ length [0; 0; 0] = 3%nat /\
  (exists s r,
      calc_reward demo_task 0 [0; 0; 0] (30 :: 0 :: [0]) [0; 0; 0] = Ok (s, [r]) /\
      -1 < r < 1 /\
      (forall y, returned_f64 r y -> -1 <= y < 1)) /\
  (forall (current current' : Task nat) r,
      @get_reward nat blip current = Ok (current', [r]) ->
      -1 < r < 1 /\ (forall y, returned_f64 r y -> -1 <= y < 1)).
Proof.
  repeat (split; [reflexivity|]).
  apply (@calc_reward_value_range nat blip demo_task 0 [0; 0; 0] [0; 0; 0] [0]
           30 0); reflexivity.
Defined.

(** C4, as stated, fails on float64 values: with the finite roll 30 the
    exact reward is within 2^-54 of -1, so -1.0 is a float64 nearest to
    it, and -1.0 is not strictly greater than -1. *)
Lemma calc_reward_f64_reaches_minus_one :
  ~ (forall s r y,
        calc_reward demo_task 0 [0; 0; 0] [30; 0; 0] [0; 0; 0] = Ok (s, [r]) ->
        returned_f64 r y ->
        -1 < y < 1).
Proof.
  intros Hclaim.
  destruct (calc_reward_returns demo_task 0 [0; 0; 0] [0; 0; 0] 30 0 [0]
              eq_refl eq_refl) as [d E].
  pose proof PI_4 as Hpi4. pose proof PI_gt_2 as Hpi2.
  rewrite (wrap_once_above 30), (wrap_once_below 0) in E by lra.
  assert (Harg : 2 - (smoothabs 0 + smoothabs (30 - 2 * PI)) <= -20).
  { pose proof (smoothabs_pos 0).
    pose proof (smoothabs_above_abs (30 - 2 * PI)) as Habs.
    rewrite Rabs_right in Habs by lra. lra. }
  pose proof (nearest_minus_one _ (tanh_near_minus_one _ Harg)) as Hnear.
  specialize (Hclaim _ _ (-1) E Hnear). lra.
Qed.

End RewardRangeRuns.
